(** * PawWell Care Center, accounts application

    A shallow embedding of the token life cycle and of the login gate of
    [backend/accounts]: the three models of [models.py], the serializers of
    [serializers.py] and the request handlers of [views.py].

    Conventions of the embedding.
    - Time stamps are integers (microseconds, the resolution of Python's
      [datetime]); [timezone.now()] is a read of the environment's clock, and
      successive reads may return different values.
    - A database table is a finite map from primary keys to rows; a model
      instance held by Python code is a pair of its primary key ([None] while
      unsaved) and its column values.
    - Handlers run in a small state-and-exception monad over the [World]: the
      database, the clock, the source of random identifiers and the mail
      transport.  Python exceptions that a handler does not catch surface as
      [Raise].
    - Strings are sequences of 8-bit characters and the character classes are
      the ASCII ones. *)

From Stdlib Require Import ZArith NArith Ascii String.
From stdpp Require Import gmap strings list fin_maps.

Local Open Scope Z_scope.
Set Warnings "-register-all".

(** ** Strings: the fragment of [str] and [re] used by the serializers *)

Definition char_between (lo hi : N) (c : ascii) : bool :=
  ((lo <=? N_of_ascii c) && (N_of_ascii c <=? hi))%N.

Definition is_upper : ascii -> bool := char_between 65 90.
Definition is_lower : ascii -> bool := char_between 97 122.
Definition is_alpha (c : ascii) : bool := is_upper c || is_lower c.
Definition is_digit : ascii -> bool := char_between 48 57.

(** [str.isspace] on one character: TAB, LF, VT, FF, CR, FS..US and SPACE. *)
Definition is_space (c : ascii) : bool :=
  char_between 9 13 c || char_between 28 32 c.

Definition is_char (x : ascii) (c : ascii) : bool := Ascii.eqb c x.

Definition not_upper (c : ascii) : bool := negb (is_upper c).

Definition lower_char (c : ascii) : ascii :=
  if is_upper c then ascii_of_N (N_of_ascii c + 32) else c.

(** [s.lower()] *)
Fixpoint lower (s : string) : string :=
  match s with
  | EmptyString => EmptyString
  | String c s' => String (lower_char c) (lower s')
  end.

Fixpoint lstrip (s : string) : string :=
  match s with
  | EmptyString => EmptyString
  | String c s' => if is_space c then lstrip s' else s
  end.

Fixpoint rstrip (s : string) : string :=
  match s with
  | EmptyString => EmptyString
  | String c s' =>
      match rstrip s' with
      | EmptyString => if is_space c then EmptyString else String c EmptyString
      | r => String c r
      end
  end.

(** [s.strip()] *)
Definition strip (s : string) : string := rstrip (lstrip s).

Definition is_empty (s : string) : bool :=
  match s with EmptyString => true | String _ _ => false end.

Fixpoint all_chars (p : ascii -> bool) (s : string) : bool :=
  match s with
  | EmptyString => true
  | String c s' => p c && all_chars p s'
  end.

Fixpoint any_char (p : ascii -> bool) (s : string) : bool :=
  match s with
  | EmptyString => false
  | String c s' => p c || any_char p s'
  end.

(** [re.sub] of a one-character class by the empty string. *)
Fixpoint remove_chars (p : ascii -> bool) (s : string) : string :=
  match s with
  | EmptyString => EmptyString
  | String c s' => if p c then remove_chars p s' else String c (remove_chars p s')
  end.

(** [s.split(sep, 1)] when [sep] occurs: the text before and after its first
    occurrence. *)
Fixpoint split_first (sep : ascii) (s : string) : option (string * string) :=
  match s with
  | EmptyString => None
  | String c s' =>
      if Ascii.eqb c sep then Some (EmptyString, s')
      else match split_first sep s' with
           | Some (a, b) => Some (String c a, b)
           | None => None
           end
  end.

(** [s.rsplit(sep, 1)] when [sep] occurs: the text before and after its last
    occurrence. *)
Fixpoint rsplit_last (sep : ascii) (s : string) : option (string * string) :=
  match s with
  | EmptyString => None
  | String c s' =>
      match rsplit_last sep s' with
      | Some (a, b) => Some (String c a, b)
      | None => if Ascii.eqb c sep then Some (EmptyString, s') else None
      end
  end.

(** ** Data model ([models.py]) *)

(** Columns of [User].  [u_password] is the stored hash.  The profile picture
    and the permission columns inherited from [PermissionsMixin] play no part
    in the handlers and are left out. *)
Record User := mkUser {
  u_email : string;
  u_password : string;
  u_first_name : string;
  u_last_name : string;
  u_phone_number : option string;
  u_user_type : string;
  u_email_verified : bool;
  u_is_active : bool;
  u_is_staff : bool;
  u_date_joined : Z;
  u_last_login : option Z
}.

(** Columns of [EmailVerification]; [ev_user] is the foreign key.  The two
    time stamps are [None] on an instance that has not been saved yet. *)
Record EmailVerification := mkEmailVerification {
  ev_user : N;
  ev_token : N;
  ev_created_at : option Z;
  ev_is_verified : bool;
  ev_expires_at : option Z
}.

(** Columns of [PasswordReset]. *)
Record PasswordReset := mkPasswordReset {
  pr_user : N;
  pr_token : N;
  pr_created_at : option Z;
  pr_is_used : bool;
  pr_expires_at : option Z
}.

Definition set_u_password (h : string) (u : User) : User :=
  mkUser (u_email u) h (u_first_name u) (u_last_name u) (u_phone_number u)
         (u_user_type u) (u_email_verified u) (u_is_active u) (u_is_staff u)
         (u_date_joined u) (u_last_login u).

Definition set_u_email_verified (b : bool) (u : User) : User :=
  mkUser (u_email u) (u_password u) (u_first_name u) (u_last_name u)
         (u_phone_number u) (u_user_type u) b (u_is_active u) (u_is_staff u)
         (u_date_joined u) (u_last_login u).

Definition set_u_is_active (b : bool) (u : User) : User :=
  mkUser (u_email u) (u_password u) (u_first_name u) (u_last_name u)
         (u_phone_number u) (u_user_type u) (u_email_verified u) b (u_is_staff u)
         (u_date_joined u) (u_last_login u).

Definition set_u_last_login (t : option Z) (u : User) : User :=
  mkUser (u_email u) (u_password u) (u_first_name u) (u_last_name u)
         (u_phone_number u) (u_user_type u) (u_email_verified u) (u_is_active u)
         (u_is_staff u) (u_date_joined u) t.

Definition set_ev_created_at (t : option Z) (v : EmailVerification) : EmailVerification :=
  mkEmailVerification (ev_user v) (ev_token v) t (ev_is_verified v) (ev_expires_at v).

Definition set_ev_is_verified (b : bool) (v : EmailVerification) : EmailVerification :=
  mkEmailVerification (ev_user v) (ev_token v) (ev_created_at v) b (ev_expires_at v).

Definition set_ev_expires_at (t : option Z) (v : EmailVerification) : EmailVerification :=
  mkEmailVerification (ev_user v) (ev_token v) (ev_created_at v) (ev_is_verified v) t.

Definition set_pr_created_at (t : option Z) (r : PasswordReset) : PasswordReset :=
  mkPasswordReset (pr_user r) (pr_token r) t (pr_is_used r) (pr_expires_at r).

Definition set_pr_is_used (b : bool) (r : PasswordReset) : PasswordReset :=
  mkPasswordReset (pr_user r) (pr_token r) (pr_created_at r) b (pr_expires_at r).

Definition set_pr_expires_at (t : option Z) (r : PasswordReset) : PasswordReset :=
  mkPasswordReset (pr_user r) (pr_token r) (pr_created_at r) (pr_is_used r) t.

(** The three tables, each with the sequence that hands out primary keys. *)
Record DB := mkDB {
  users : gmap N User;
  users_seq : N;
  email_verifications : gmap N EmailVerification;
  email_verifications_seq : N;
  password_resets : gmap N PasswordReset;
  password_resets_seq : N
}.

Definition set_users (t : gmap N User) (s : N) (d : DB) : DB :=
  mkDB t s (email_verifications d) (email_verifications_seq d)
       (password_resets d) (password_resets_seq d).

Definition set_email_verifications (t : gmap N EmailVerification) (s : N) (d : DB) : DB :=
  mkDB (users d) (users_seq d) t s (password_resets d) (password_resets_seq d).

Definition set_password_resets (t : gmap N PasswordReset) (s : N) (d : DB) : DB :=
  mkDB (users d) (users_seq d) (email_verifications d) (email_verifications_seq d) t s.

(** [timedelta(hours=h)] in microseconds. *)
Definition timedelta_hours (h : Z) : Z := h * 3600000000.
Definition timedelta_minutes (m : Z) : Z := m * 60000000.
Definition timedelta_days (d : Z) : Z := d * 86400000000.

(** ** Responses *)

Inductive Value :=
| VBool (b : bool)
| VStr (s : string)
| VTime (t : Z)
| VInt (n : N)
| VNull
| VList (l : list Value)
| VDict (d : list (string * Value)).

Record Response := mkResponse {
  data : list (string * Value);
  status : Z
}.

Module status.
Definition HTTP_200_OK : Z := 200.
Definition HTTP_201_CREATED : Z := 201.
Definition HTTP_400_BAD_REQUEST : Z := 400.
Definition HTTP_401_UNAUTHORIZED : Z := 401.
Definition HTTP_403_FORBIDDEN : Z := 403.
Definition HTTP_404_NOT_FOUND : Z := 404.
End status.

(** ** Request payloads

    A payload is the request body after the declarative field parsing of the
    REST framework (required fields present, values of the declared type). *)

Record RegistrationData := mkRegistrationData {
  reg_email : string;
  reg_password : string;
  reg_confirm_password : string;
  reg_first_name : string;
  reg_last_name : string;
  (** absent key, explicit null, or a string *)
  reg_phone_number : option (option string);
  reg_user_type : option string
}.

Record LoginData := mkLoginData {
  login_email : string;
  login_password : string
}.

Record ForgotPasswordData := mkForgotPasswordData {
  forgot_email : string
}.

Record ResetPasswordData := mkResetPasswordData {
  reset_token : N;
  reset_new_password : string;
  reset_confirm_password : string
}.

(** ** The environment and the world *)

Inductive MailKind := VerificationMail | WelcomeMail | PasswordResetMail | PasswordChangedMail.

Record Mail := mkMail {
  mail_kind : MailKind;
  mail_to : string;
  mail_token : option N
}.

(** What the handlers obtain from outside the repository: the wall clock, the
    random identifiers, the mail transport, the password hasher, the session
    token library with its configured lifetimes, and the errors (field name,
    message) that the validators derived by the REST framework from the field
    declarations report on a payload. *)
Record Env := mkEnv {
  clock : nat -> Z;
  uuid4 : nat -> N;
  mail_delivered : nat -> bool;
  make_password : string -> string;
  check_password_hash : string -> string -> bool;
  jwt_pair : N -> nat -> string * string;
  ACCESS_TOKEN_LIFETIME : option Z;
  REFRESH_TOKEN_LIFETIME : option Z;
  registration_field_errors : gmap N User -> RegistrationData -> list (string * string);
  login_field_errors : LoginData -> list (string * string);
  forgot_password_field_errors : ForgotPasswordData -> list (string * string);
  reset_password_field_errors : ResetPasswordData -> list (string * string)
}.

(** [reads], [draws] and [sessions] count the uses made of the clock, of
    [uuid4] and of the session token library; [outbox] lists the calls of
    [send_mail], latest first; [password_checks] counts the calls of the
    password hasher's comparison. *)
Record World := mkWorld {
  env : Env;
  db : DB;
  reads : nat;
  draws : nat;
  sessions : nat;
  outbox : list Mail;
  password_checks : nat
}.

Definition set_db (d : DB) (w : World) : World :=
  mkWorld (env w) d (reads w) (draws w) (sessions w) (outbox w) (password_checks w).

Definition set_reads (n : nat) (w : World) : World :=
  mkWorld (env w) (db w) n (draws w) (sessions w) (outbox w) (password_checks w).

Definition set_draws (n : nat) (w : World) : World :=
  mkWorld (env w) (db w) (reads w) n (sessions w) (outbox w) (password_checks w).

Definition set_sessions (n : nat) (w : World) : World :=
  mkWorld (env w) (db w) (reads w) (draws w) n (outbox w) (password_checks w).

Definition set_outbox (l : list Mail) (w : World) : World :=
  mkWorld (env w) (db w) (reads w) (draws w) (sessions w) l (password_checks w).

Definition set_password_checks (n : nat) (w : World) : World :=
  mkWorld (env w) (db w) (reads w) (draws w) (sessions w) (outbox w) n.

(** ** The monad of handlers *)

Inductive Model := MUser | MEmailVerification | MPasswordReset.

Inductive Exn :=
| DoesNotExist (m : Model)
| MultipleObjectsReturned (m : Model)
| IntegrityError
| TypeError
| ValueError.

#[global] Instance Model_eq_dec : EqDecision Model.
Proof. solve_decision. Defined.

#[global] Instance Exn_eq_dec : EqDecision Exn.
Proof. solve_decision. Defined.

Inductive Result (A : Type) :=
| Ok (a : A)
| Raise (e : Exn).
Arguments Ok {A} a.
Arguments Raise {A} e.

Definition M (A : Type) : Type := World -> Result A * World.

Definition ret {A} (a : A) : M A := fun w => (Ok a, w).

Definition raise {A} (e : Exn) : M A := fun w => (Raise e, w).

Definition bind {A B} (m : M A) (k : A -> M B) : M B :=
  fun w =>
    match m w with
    | (Ok a, w') => k a w'
    | (Raise e, w') => (Raise e, w')
    end.

(** [try: m except e: h] *)
Definition try_except {A} (m : M A) (e : Exn) (h : M A) : M A :=
  fun w =>
    match m w with
    | (Ok a, w') => (Ok a, w')
    | (Raise e', w') => if decide (e' = e) then h w' else (Raise e', w')
    end.

Declare Scope handler_scope.
Delimit Scope handler_scope with handler.
Notation "x <- m ;; k" := (bind m (fun x => k))
  (at level 100, m at next level, right associativity) : handler_scope.
Notation "m ;;; k" := (bind m (fun _ => k))
  (at level 100, right associativity) : handler_scope.
Local Open Scope handler_scope.

(** [timezone.now()] *)
Definition timezone_now : M Z :=
  fun w => (Ok (clock (env w) (reads w)), set_reads (S (reads w)) w).

(** [uuid.uuid4()] *)
Definition uuid_uuid4 : M N :=
  fun w => (Ok (uuid4 (env w) (draws w)), set_draws (S (draws w)) w).

Definition get_db : M DB := fun w => (Ok (db w), w).

Definition put_db (d : DB) : M unit := fun w => (Ok tt, set_db d w).

(** The body shared by the four helpers of [utils.py]: [send_mail] is called
    once, and the helper returns [True], or [False] when [send_mail] raised. *)
Definition send_mail (m : Mail) : M bool :=
  fun w => (Ok (mail_delivered (env w) (length (outbox w))), set_outbox (m :: outbox w) w).

(** [Manager.get] on the rows selected by a filter. *)
Definition get_unique {A} (m : Model) (rows : gmap N A) : Result (N * A) :=
  match map_to_list rows with
  | [] => Raise (DoesNotExist m)
  | [r] => Ok r
  | _ => Raise (MultipleObjectsReturned m)
  end.

Definition lift {A} (r : Result A) : M A := fun w => (r, w).

(** *** [User] and its manager *)

Module User.

(** [User.objects.filter(email=value)] *)
Definition objects_filter_email (value : string) (d : DB) : gmap N User :=
  filter (fun kv : N * User => u_email kv.2 = value) (users d).

(** [User.objects.filter(email=value).exists()] *)
Definition objects_filter_email_exists (value : string) : M bool :=
  d <- get_db ;;
  ret (negb (bool_decide (objects_filter_email value d = ∅))).

(** [User.objects.get(email=email)] *)
Definition objects_get_email (email : string) : M (N * User) :=
  d <- get_db ;;
  lift (get_unique MUser (objects_filter_email email d)).

(** The related object behind a foreign key [user]. *)
Definition objects_get_pk (pk : N) : M (N * User) :=
  d <- get_db ;;
  match users d !! pk with
  | Some u => ret (pk, u)
  | None => raise (DoesNotExist MUser)
  end.

(** [user.save()].  An unsaved instance is inserted under the next key of
    the sequence, unless its email is taken ([unique=True]); a saved one has
    its row rewritten.  No handler assigns the email of a saved instance. *)
Definition save (self : option N * User) : M (N * User) :=
  d <- get_db ;;
  match self.1 with
  | Some pk =>
      put_db (set_users (<[pk := self.2]> (users d)) (users_seq d) d) ;;;
      ret (pk, self.2)
  | None =>
      if bool_decide (objects_filter_email (u_email self.2) d = ∅) then
        let pk := users_seq d in
        put_db (set_users (<[pk := self.2]> (users d)) (N.succ pk) d) ;;;
        ret (pk, self.2)
      else raise IntegrityError
  end.

(** [user.save(update_fields=['last_login'])] *)
Definition save_last_login (self : N * User) : M unit :=
  d <- get_db ;;
  put_db (set_users (alter (set_u_last_login (u_last_login self.2)) self.1 (users d))
                    (users_seq d) d).

(** [user.set_password(raw)] *)
Definition set_password (raw : string) (self : User) : M User :=
  fun w => (Ok (set_u_password (make_password (env w) raw) self), w).

(** [user.check_password(raw)] *)
Definition check_password (raw : string) (self : User) : M bool :=
  fun w => (Ok (check_password_hash (env w) raw (u_password self)),
            set_password_checks (S (password_checks w)) w).

Definition get_full_name (self : User) : string :=
  strip (u_first_name self +:+ " " +:+ u_last_name self).

End User.

Module UserManager.

(** [BaseUserManager.normalize_email]: the domain part is lower-cased. *)
Definition normalize_email (email : string) : string :=
  match rsplit_last "@" (strip email) with
  | Some (email_name, domain_part) => email_name +:+ "@" +:+ lower domain_part
  | None => email
  end.

(** The keyword arguments with which the registration serializer calls
    [create_user]. *)
Record extra_fields := mk_extra_fields {
  first_name : string;
  last_name : string;
  phone_number : option string;
  user_type : string;
  is_active : bool;
  email_verified : bool
}.

(** [create_user(email, password, **extra_fields)].  The remaining columns
    take the defaults of the model; [date_joined] defaults to
    [timezone.now], read when the instance is built. *)
Definition create_user (email password : string) (extra : extra_fields) : M (N * User) :=
  if is_empty email then raise ValueError
  else
    let email := normalize_email email in
    date_joined <- timezone_now ;;
    let user := mkUser email EmptyString (first_name extra) (last_name extra)
                       (phone_number extra) (user_type extra)
                       (email_verified extra) (is_active extra) false
                       date_joined None in
    user <- User.set_password password user ;;
    User.save (None, user).

End UserManager.

(** *** [EmailVerification] *)

Module EmailVerification.

Definition objects_filter_token (token : N) (d : DB) : gmap N EmailVerification :=
  filter (fun kv : N * EmailVerification => ev_token kv.2 = token) (email_verifications d).

(** [EmailVerification.objects.filter(user=user)] *)
Definition objects_filter_user (user : N) (d : DB) : gmap N EmailVerification :=
  filter (fun kv : N * EmailVerification => ev_user kv.2 = user) (email_verifications d).

(** [EmailVerification.objects.get(token=token)] *)
Definition objects_get_token (token : N) : M (N * EmailVerification) :=
  d <- get_db ;;
  lift (get_unique MEmailVerification (objects_filter_token token d)).

(** [EmailVerification.objects.filter(user=user).delete()] *)
Definition objects_filter_user_delete (user : N) : M unit :=
  d <- get_db ;;
  put_db (set_email_verifications
            (filter (fun kv : N * EmailVerification => ev_user kv.2 <> user)
                    (email_verifications d))
            (email_verifications_seq d) d).

(** [models.Model.save]: an unsaved instance gets [created_at]
    ([auto_now_add]) and is inserted under the next key of the sequence,
    unless its token is taken ([unique=True]); a saved one has its row
    rewritten. *)
Definition super_save (self : option N * EmailVerification) : M (N * EmailVerification) :=
  match self.1 with
  | Some pk =>
      d <- get_db ;;
      put_db (set_email_verifications (<[pk := self.2]> (email_verifications d))
                                      (email_verifications_seq d) d) ;;;
      ret (pk, self.2)
  | None =>
      now <- timezone_now ;;
      let row := set_ev_created_at (Some now) self.2 in
      d <- get_db ;;
      if bool_decide (objects_filter_token (ev_token row) d = ∅) then
        let pk := email_verifications_seq d in
        put_db (set_email_verifications (<[pk := row]> (email_verifications d))
                                        (N.succ pk) d) ;;;
        ret (pk, row)
      else raise IntegrityError
  end.

Definition save (self : option N * EmailVerification) : M (N * EmailVerification) :=
  row <- match ev_expires_at self.2 with
         | None =>
             now <- timezone_now ;;
             ret (set_ev_expires_at (Some (now + timedelta_hours 24)) self.2)
         | Some _ => ret self.2
         end ;;
  super_save (self.1, row).

(** [EmailVerification.objects.create(user=user)]: the token defaults to a
    fresh [uuid4], [is_verified] to [False]. *)
Definition objects_create (user : N * User) : M (N * EmailVerification) :=
  token <- uuid_uuid4 ;;
  save (None, mkEmailVerification user.1 token None false None).

Definition is_expired (self : EmailVerification) : M bool :=
  now <- timezone_now ;;
  match ev_expires_at self with
  | Some expires_at => ret (now >? expires_at)
  | None => raise TypeError
  end.

(** [verify] returns its result together with the instance as it leaves
    it. *)
Definition verify (self : N * EmailVerification) : M (bool * (N * EmailVerification)) :=
  expired <- is_expired self.2 ;;
  if negb expired then
    let self := (self.1, set_ev_is_verified true self.2) in
    user <- User.objects_get_pk (ev_user self.2) ;;
    let user := (user.1, set_u_email_verified true user.2) in
    User.save (Some user.1, user.2) ;;;
    self <- save (Some self.1, self.2) ;;
    ret (true, self)
  else ret (false, self).

End EmailVerification.

(** *** [PasswordReset] *)

Module PasswordReset.

Definition objects_filter_token (token : N) (d : DB) : gmap N PasswordReset :=
  filter (fun kv : N * PasswordReset => pr_token kv.2 = token) (password_resets d).

(** [PasswordReset.objects.get(token=token)] *)
Definition objects_get_token (token : N) : M (N * PasswordReset) :=
  d <- get_db ;;
  lift (get_unique MPasswordReset (objects_filter_token token d)).

Definition super_save (self : option N * PasswordReset) : M (N * PasswordReset) :=
  match self.1 with
  | Some pk =>
      d <- get_db ;;
      put_db (set_password_resets (<[pk := self.2]> (password_resets d))
                                  (password_resets_seq d) d) ;;;
      ret (pk, self.2)
  | None =>
      now <- timezone_now ;;
      let row := set_pr_created_at (Some now) self.2 in
      d <- get_db ;;
      if bool_decide (objects_filter_token (pr_token row) d = ∅) then
        let pk := password_resets_seq d in
        put_db (set_password_resets (<[pk := row]> (password_resets d)) (N.succ pk) d) ;;;
        ret (pk, row)
      else raise IntegrityError
  end.

Definition save (self : option N * PasswordReset) : M (N * PasswordReset) :=
  row <- match pr_expires_at self.2 with
         | None =>
             now <- timezone_now ;;
             ret (set_pr_expires_at (Some (now + timedelta_hours 1)) self.2)
         | Some _ => ret self.2
         end ;;
  super_save (self.1, row).

(** [PasswordReset.objects.create(user=user)] *)
Definition objects_create (user : N * User) : M (N * PasswordReset) :=
  token <- uuid_uuid4 ;;
  save (None, mkPasswordReset user.1 token None false None).

Definition is_expired (self : PasswordReset) : M bool :=
  now <- timezone_now ;;
  match pr_expires_at self with
  | Some expires_at => ret (now >? expires_at)
  | None => raise TypeError
  end.

(** [not self.is_used and not self.is_expired()]: the clock is read only
    when the token is unused. *)
Definition can_reset (self : PasswordReset) : M bool :=
  if negb (pr_is_used self) then
    expired <- is_expired self ;;
    ret (negb expired)
  else ret false.

End PasswordReset.

(** ** Serializers ([serializers.py]) *)

(** The outcome of a [validate_<field>] hook: the value to keep, or the
    message of the [serializers.ValidationError] it raised. *)
Inductive Checked (A : Type) :=
| Valid (a : A)
| ValidationError (message : string).
Arguments Valid {A} a.
Arguments ValidationError {A} message.

Definition has_error (field : string) (errors : list (string * string)) : bool :=
  existsb (fun e : string * string => String.eqb e.1 field) errors.

(** A hook runs on a field that passed its declared validators. *)
Definition hook_errors {A} (field : string) (declared : list (string * string))
    (r : Checked A) : list (string * string) :=
  if has_error field declared then []
  else match r with
       | Valid _ => []
       | ValidationError message => [(field, message)]
       end.

Definition get_env : M Env := fun w => (Ok (env w), w).

(** The password policy shared by registration and reset. *)
Definition password_policy (value : string) : Checked string :=
  if (String.length value <? 8)%nat then
    ValidationError "Password must be at least 8 characters long."
  else if negb (any_char is_alpha value) then
    ValidationError "Password must contain at least one letter."
  else if negb (any_char is_digit value) then
    ValidationError "Password must contain at least one number."
  else Valid value.

Module UserRegistrationSerializer.

Definition email_local_char (c : ascii) : bool :=
  is_alpha c || is_digit c || is_char "." c || is_char "_" c || is_char "%" c
  || is_char "+" c || is_char "-" c.

Definition email_domain_char (c : ascii) : bool :=
  is_alpha c || is_digit c || is_char "." c || is_char "-" c.

(** [re.match(r'^[a-zA-Z0-9._%+-]+@[a-zA-Z0-9.-]+\.[a-zA-Z]{2,}$', value)]
    on a stripped value: the local part ends at the first [@], and the
    top-level domain starts after the last dot. *)
Definition email_regex_match (value : string) : bool :=
  match split_first "@" value with
  | Some (local_part, rest) =>
      negb (is_empty local_part) && all_chars email_local_char local_part &&
      match rsplit_last "." rest with
      | Some (domain, tld) =>
          negb (is_empty domain) && all_chars email_domain_char domain &&
          (2 <=? String.length tld)%nat && all_chars is_alpha tld
      | None => false
      end
  | None => false
  end.

Definition validate_email (value : string) : M (Checked string) :=
  let value := strip (lower value) in
  taken <- User.objects_filter_email_exists value ;;
  if taken then ret (ValidationError "A user with this email already exists.")
  else if negb (email_regex_match value) then
    ret (ValidationError "Enter a valid email address.")
  else ret (Valid value).

Definition validate_password (value : string) : Checked string :=
  password_policy value.

Definition phone_separator (c : ascii) : bool :=
  is_space c || is_char "-" c || is_char "(" c || is_char ")" c.

(** [re.match(r'^\+?[\d]{10,15}$', cleaned)] *)
Definition phone_regex_match (cleaned : string) : bool :=
  let digits := match cleaned with
                | String "+" rest => rest
                | _ => cleaned
                end in
  all_chars is_digit digits && (10 <=? String.length digits)%nat
  && (String.length digits <=? 15)%nat.

Definition validate_phone_number (value : option string) : Checked (option string) :=
  match value with
  | Some v =>
      if negb (is_empty v) then
        let cleaned := remove_chars phone_separator v in
        if negb (phone_regex_match cleaned) then
          ValidationError "Enter a valid phone number (10-15 digits)."
        else Valid value
      else Valid value
  | None => Valid value
  end.

Definition validate (attrs : RegistrationData) : Checked RegistrationData :=
  if negb (String.eqb (reg_password attrs) (reg_confirm_password attrs)) then
    ValidationError "Passwords do not match."
  else Valid attrs.

(** [serializer.is_valid()]: the errors, or the validated data. *)
Definition is_valid (data : RegistrationData)
    : M (list (string * string) + RegistrationData) :=
  e <- get_env ;;
  d <- get_db ;;
  let declared := registration_field_errors e (users d) data in
  email <- validate_email (reg_email data) ;;
  let password := validate_password (reg_password data) in
  let phone_number :=
    match reg_phone_number data with
    | Some v =>
        match validate_phone_number v with
        | Valid v' => Valid (Some v')
        | ValidationError message => ValidationError message
        end
    | None => Valid None
    end in
  let errors := declared ++ hook_errors "email" declared email
                ++ hook_errors "password" declared password
                ++ hook_errors "phone_number" declared phone_number in
  match errors, email, password, phone_number with
  | [], Valid email, Valid password, Valid phone_number =>
      let attrs := mkRegistrationData email password (reg_confirm_password data)
                     (reg_first_name data) (reg_last_name data) phone_number
                     (reg_user_type data) in
      match validate attrs with
      | Valid attrs => ret (inr attrs)
      | ValidationError message => ret (inl [("confirm_password", message)])
      end
  | _, _, _, _ => ret (inl errors)
  end.

Definition create (validated_data : RegistrationData) : M (N * User) :=
  UserManager.create_user
    (reg_email validated_data)
    (reg_password validated_data)
    (UserManager.mk_extra_fields
       (reg_first_name validated_data)
       (reg_last_name validated_data)
       (default (Some EmptyString) (reg_phone_number validated_data))
       (default "pet_owner" (reg_user_type validated_data))
       false
       false).

End UserRegistrationSerializer.

Module UserLoginSerializer.

Definition validate_email (value : string) : string := strip (lower value).

Definition validate_password (value : string) : Checked string :=
  if is_empty value || is_empty (strip value) then
    ValidationError "Password cannot be empty."
  else Valid value.

Definition is_valid (data : LoginData) : M (list (string * string) + LoginData) :=
  e <- get_env ;;
  let declared := login_field_errors e data in
  let password := validate_password (login_password data) in
  let errors := declared ++ hook_errors "password" declared password in
  match errors, password with
  | [], Valid password => ret (inr (mkLoginData (validate_email (login_email data)) password))
  | _, _ => ret (inl errors)
  end.

End UserLoginSerializer.

Module ForgotPasswordSerializer.

Definition validate_email (value : string) : string := strip (lower value).

Definition is_valid (data : ForgotPasswordData)
    : M (list (string * string) + ForgotPasswordData) :=
  e <- get_env ;;
  match forgot_password_field_errors e data with
  | [] => ret (inr (mkForgotPasswordData (validate_email (forgot_email data))))
  | errors => ret (inl errors)
  end.

End ForgotPasswordSerializer.

Module ResetPasswordSerializer.

Definition validate_new_password (value : string) : Checked string :=
  password_policy value.

Definition validate (attrs : ResetPasswordData) : Checked ResetPasswordData :=
  if negb (String.eqb (reset_new_password attrs) (reset_confirm_password attrs)) then
    ValidationError "Passwords do not match."
  else Valid attrs.

Definition is_valid (data : ResetPasswordData)
    : M (list (string * string) + ResetPasswordData) :=
  e <- get_env ;;
  let declared := reset_password_field_errors e data in
  let new_password := validate_new_password (reset_new_password data) in
  let errors := declared ++ hook_errors "new_password" declared new_password in
  match errors, new_password with
  | [], Valid new_password =>
      let attrs := mkResetPasswordData (reset_token data) new_password
                     (reset_confirm_password data) in
      match validate attrs with
      | Valid attrs => ret (inr attrs)
      | ValidationError message => ret (inl [("confirm_password", message)])
      end
  | _, _ => ret (inl errors)
  end.

End ResetPasswordSerializer.

Definition time_or_null (t : option Z) : Value :=
  match t with Some t => VTime t | None => VNull end.

Definition string_or_null (s : option string) : Value :=
  match s with Some s => VStr s | None => VNull end.

Module UserProfileSerializer.

(** [UserProfileSerializer(user).data] *)
Definition data (user : N * User) : Value :=
  VDict [ ("id", VInt user.1);
          ("email", VStr (u_email user.2));
          ("first_name", VStr (u_first_name user.2));
          ("last_name", VStr (u_last_name user.2));
          ("full_name", VStr (User.get_full_name user.2));
          ("phone_number", string_or_null (u_phone_number user.2));
          ("user_type", VStr (u_user_type user.2));
          ("profile_picture", VNull);
          ("email_verified", VBool (u_email_verified user.2));
          ("is_active", VBool (u_is_active user.2));
          ("date_joined", VTime (u_date_joined user.2));
          ("last_login", time_or_null (u_last_login user.2)) ].

End UserProfileSerializer.

(** [serializer.errors]: each field with the list of its messages. *)
Definition errors_value (errors : list (string * string)) : Value :=
  VDict (map (fun e : string * string => (e.1, VList [VStr e.2])) errors).

(** ** Mail helpers ([utils.py]) *)

Module utils.

Definition send_verification_email (user : User) (token : N) : M bool :=
  send_mail (mkMail VerificationMail (u_email user) (Some token)).

Definition send_welcome_email (user : User) : M bool :=
  send_mail (mkMail WelcomeMail (u_email user) None).

Definition send_password_reset_email (user : User) (token : N) : M bool :=
  send_mail (mkMail PasswordResetMail (u_email user) (Some token)).

Definition send_password_changed_email (user : User) : M bool :=
  send_mail (mkMail PasswordChangedMail (u_email user) None).

End utils.

(** ** Request handlers ([views.py]) *)

Module UserRegistrationView.

Definition post (data : RegistrationData) : M Response :=
  v <- UserRegistrationSerializer.is_valid data ;;
  match v with
  | inr validated_data =>
      user <- UserRegistrationSerializer.create validated_data ;;
      verification <- EmailVerification.objects_create user ;;
      email_sent <- utils.send_verification_email user.2 (ev_token verification.2) ;;
      ret (mkResponse
             [ ("success", VBool true);
               ("message", VStr "Registration successful! Please check your email to verify your account.");
               ("email", VStr (u_email user.2));
               ("email_sent", VBool email_sent);
               ("instructions", VStr "Check your email inbox and click the verification link to activate your account.") ]
             status.HTTP_201_CREATED)
  | inl errors =>
      ret (mkResponse [ ("success", VBool false); ("errors", errors_value errors) ]
                      status.HTTP_400_BAD_REQUEST)
  end.

End UserRegistrationView.

Module EmailVerificationView.

Definition get (token : N) : M Response :=
  try_except
    (verification <- EmailVerification.objects_get_token token ;;
     if ev_is_verified verification.2 then
       ret (mkResponse
              [ ("success", VBool false);
                ("message", VStr "Email already verified. You can now login.") ]
              status.HTTP_400_BAD_REQUEST)
     else
       expired <- EmailVerification.is_expired verification.2 ;;
       if expired then
         ret (mkResponse
                [ ("success", VBool false);
                  ("message", VStr "Verification link has expired. Please register again or request a new verification link.") ]
                status.HTTP_400_BAD_REQUEST)
       else
         let verification := (verification.1, set_ev_is_verified true verification.2) in
         user <- User.objects_get_pk (ev_user verification.2) ;;
         let user := (user.1, set_u_is_active true (set_u_email_verified true user.2)) in
         User.save (Some user.1, user.2) ;;;
         EmailVerification.save (Some verification.1, verification.2) ;;;
         utils.send_welcome_email user.2 ;;;
         ret (mkResponse
                [ ("success", VBool true);
                  ("message", VStr "Email verified successfully! You can now login to your account.");
                  ("email", VStr (u_email user.2)) ]
                status.HTTP_200_OK))
    (DoesNotExist MEmailVerification)
    (ret (mkResponse
            [ ("success", VBool false);
              ("message", VStr "Invalid verification token.") ]
            status.HTTP_404_NOT_FOUND)).

End EmailVerificationView.

(** [RefreshToken.for_user(user)], as the pair of [str(refresh.access_token)]
    and [str(refresh)]. *)
Definition RefreshToken_for_user (user : N) : M (string * string) :=
  fun w => (Ok (jwt_pair (env w) user (sessions w)), set_sessions (S (sessions w)) w).

Module UserLoginView.

Definition post (data : LoginData) : M Response :=
  v <- UserLoginSerializer.is_valid data ;;
  match v with
  | inl errors =>
      ret (mkResponse [ ("success", VBool false); ("errors", errors_value errors) ]
                      status.HTTP_400_BAD_REQUEST)
  | inr validated_data =>
      let email := login_email validated_data in
      let password := login_password validated_data in
      found <- try_except (user <- User.objects_get_email email ;; ret (Some user))
                          (DoesNotExist MUser) (ret None) ;;
      match found with
      | None =>
          ret (mkResponse
                 [ ("success", VBool false);
                   ("message", VStr "Invalid email or password.") ]
                 status.HTTP_401_UNAUTHORIZED)
      | Some user =>
          if negb (u_email_verified user.2) then
            ret (mkResponse
                   [ ("success", VBool false);
                     ("message", VStr "Please verify your email before logging in. Check your inbox for the verification link.") ]
                   status.HTTP_403_FORBIDDEN)
          else if negb (u_is_active user.2) then
            ret (mkResponse
                   [ ("success", VBool false);
                     ("message", VStr "Your account has been deactivated. Please contact support.") ]
                   status.HTTP_403_FORBIDDEN)
          else
            password_ok <- User.check_password password user.2 ;;
            if negb password_ok then
              ret (mkResponse
                     [ ("success", VBool false);
                       ("message", VStr "Invalid email or password.") ]
                     status.HTTP_401_UNAUTHORIZED)
            else
              now <- timezone_now ;;
              let user := (user.1, set_u_last_login (Some now) user.2) in
              User.save_last_login user ;;;
              tokens <- RefreshToken_for_user user.1 ;;
              e <- get_env ;;
              let access_token_lifetime :=
                default (timedelta_minutes 60) (ACCESS_TOKEN_LIFETIME e) in
              let refresh_token_lifetime :=
                default (timedelta_days 1) (REFRESH_TOKEN_LIFETIME e) in
              now_access <- timezone_now ;;
              now_refresh <- timezone_now ;;
              ret (mkResponse
                     [ ("success", VBool true);
                       ("message", VStr "Login successful!");
                       ("access", VStr tokens.1);
                       ("refresh", VStr tokens.2);
                       ("user", UserProfileSerializer.data user);
                       ("access_token_expiry", VTime (now_access + access_token_lifetime));
                       ("refresh_token_expiry", VTime (now_refresh + refresh_token_lifetime)) ]
                     status.HTTP_200_OK)
      end
  end.

End UserLoginView.

Module ForgotPasswordView.

Definition post (data : ForgotPasswordData) : M Response :=
  v <- ForgotPasswordSerializer.is_valid data ;;
  match v with
  | inl errors =>
      ret (mkResponse [ ("success", VBool false); ("errors", errors_value errors) ]
                      status.HTTP_400_BAD_REQUEST)
  | inr validated_data =>
      let email := forgot_email validated_data in
      try_except
        (user <- User.objects_get_email email ;;
         reset <- PasswordReset.objects_create user ;;
         utils.send_password_reset_email user.2 (pr_token reset.2) ;;;
         ret tt)
        (DoesNotExist MUser)
        (ret tt) ;;;
      ret (mkResponse
             [ ("success", VBool true);
               ("message", VStr "If an account exists with this email, you will receive a password reset link shortly.");
               ("instructions", VStr "Please check your email inbox and spam folder.") ]
             status.HTTP_200_OK)
  end.

End ForgotPasswordView.

Module ResetPasswordView.

Definition post (data : ResetPasswordData) : M Response :=
  v <- ResetPasswordSerializer.is_valid data ;;
  match v with
  | inl errors =>
      ret (mkResponse [ ("success", VBool false); ("errors", errors_value errors) ]
                      status.HTTP_400_BAD_REQUEST)
  | inr validated_data =>
      let token := reset_token validated_data in
      let new_password := reset_new_password validated_data in
      try_except
        (reset <- PasswordReset.objects_get_token token ;;
         if pr_is_used reset.2 then
           ret (mkResponse
                  [ ("success", VBool false);
                    ("message", VStr "This password reset link has already been used.") ]
                  status.HTTP_400_BAD_REQUEST)
         else
           expired <- PasswordReset.is_expired reset.2 ;;
           if expired then
             ret (mkResponse
                    [ ("success", VBool false);
                      ("message", VStr "This password reset link has expired. Please request a new one.") ]
                    status.HTTP_400_BAD_REQUEST)
           else
             user <- User.objects_get_pk (pr_user reset.2) ;;
             changed <- User.set_password new_password user.2 ;;
             User.save (Some user.1, changed) ;;;
             let reset := (reset.1, set_pr_is_used true reset.2) in
             PasswordReset.save (Some reset.1, reset.2) ;;;
             utils.send_password_changed_email changed ;;;
             ret (mkResponse
                    [ ("success", VBool true);
                      ("message", VStr "Password reset successful! You can now login with your new password.") ]
                    status.HTTP_200_OK))
        (DoesNotExist MPasswordReset)
        (ret (mkResponse
                [ ("success", VBool false);
                  ("message", VStr "Invalid password reset token.") ]
                status.HTTP_404_NOT_FOUND))
  end.

End ResetPasswordView.

Module ResendVerificationEmailView.

(** [email] is [request.data.get('email')]. *)
Definition post (email : option string) : M Response :=
  match email with
  | Some email =>
      if is_empty email then
        ret (mkResponse
               [ ("success", VBool false); ("message", VStr "Email is required.") ]
               status.HTTP_400_BAD_REQUEST)
      else
        try_except
          (user <- User.objects_get_email (strip (lower email)) ;;
           if u_email_verified user.2 then
             ret (mkResponse
                    [ ("success", VBool false);
                      ("message", VStr "Email is already verified. You can login.") ]
                    status.HTTP_400_BAD_REQUEST)
           else
             EmailVerification.objects_filter_user_delete user.1 ;;;
             verification <- EmailVerification.objects_create user ;;
             email_sent <- utils.send_verification_email user.2 (ev_token verification.2) ;;
             ret (mkResponse
                    [ ("success", VBool true);
                      ("message", VStr "Verification email sent successfully!");
                      ("email", VStr (u_email user.2));
                      ("email_sent", VBool email_sent) ]
                    status.HTTP_200_OK))
          (DoesNotExist MUser)
          (ret (mkResponse
                  [ ("success", VBool true);
                    ("message", VStr "If an account exists with this email, you will receive a verification link shortly.") ]
                  status.HTTP_200_OK))
  | None =>
      ret (mkResponse
             [ ("success", VBool false); ("message", VStr "Email is required.") ]
             status.HTTP_400_BAD_REQUEST)
  end.

End ResendVerificationEmailView.

(** ** The result taxonomy of the specification

    The handlers report each kind of outcome by a fixed response; the names
    below are those of the specification. *)

Definition failure (message : string) (code : Z) : Response :=
  mkResponse [ ("success", VBool false); ("message", VStr message) ] code.

Module VerifyEmail.
Definition AlreadyVerifiedError : Response :=
  failure "Email already verified. You can now login." 400.
Definition ExpiredError : Response :=
  failure "Verification link has expired. Please register again or request a new verification link." 400.
Definition NotFoundError : Response :=
  failure "Invalid verification token." 404.
Definition Success (email : string) : Response :=
  mkResponse [ ("success", VBool true);
               ("message", VStr "Email verified successfully! You can now login to your account.");
               ("email", VStr email) ] 200.
End VerifyEmail.

Module Login.
Definition InvalidCredentialsError : Response :=
  failure "Invalid email or password." 401.
Definition UnverifiedEmailError : Response :=
  failure "Please verify your email before logging in. Check your inbox for the verification link." 403.
Definition DeactivatedError : Response :=
  failure "Your account has been deactivated. Please contact support." 403.
End Login.

Module ResetPassword.
Definition AlreadyUsedError : Response :=
  failure "This password reset link has already been used." 400.
Definition ExpiredError : Response :=
  failure "This password reset link has expired. Please request a new one." 400.
Definition NotFoundError : Response :=
  failure "Invalid password reset token." 404.
End ResetPassword.

Module ForgotPassword.
Definition Success : Response :=
  mkResponse [ ("success", VBool true);
               ("message", VStr "If an account exists with this email, you will receive a password reset link shortly.");
               ("instructions", VStr "Please check your email inbox and spam folder.") ] 200.
End ForgotPassword.

Module ResendVerification.
Definition AlreadyVerifiedError : Response :=
  failure "Email is already verified. You can login." 400.
Definition Sent (email : string) (email_sent : bool) : Response :=
  mkResponse [ ("success", VBool true);
               ("message", VStr "Verification email sent successfully!");
               ("email", VStr email);
               ("email_sent", VBool email_sent) ] 200.
Definition UnknownEmail : Response :=
  mkResponse [ ("success", VBool true);
               ("message", VStr "If an account exists with this email, you will receive a verification link shortly.") ] 200.
End ResendVerification.

Module Registration.
Definition Success (email : string) (email_sent : bool) : Response :=
  mkResponse [ ("success", VBool true);
               ("message", VStr "Registration successful! Please check your email to verify your account.");
               ("email", VStr email);
               ("email_sent", VBool email_sent);
               ("instructions", VStr "Check your email inbox and click the verification link to activate your account.") ] 201.
End Registration.

(** ** A sample deployment

    Three accounts (one loginable, one unverified, one deactivated), a few
    tokens in each state, a clock that advances by one microsecond per read, a
    transparent hasher and a mail transport that always delivers. *)

Module Sample.

Definition hasher (raw : string) : string := "hash:" +:+ raw.

Definition sample_env : Env :=
  mkEnv (fun n => 1000 + Z.of_nat n)
        (fun n => (300 + N.of_nat n)%N)
        (fun _ => true)
        hasher
        (fun raw encoded => String.eqb (hasher raw) encoded)
        (fun _ _ => ("access", "refresh"))
        None None
        (fun _ _ => []) (fun _ => []) (fun _ => []) (fun _ => []).

Definition alice : User :=
  mkUser "alice@x.com" (hasher "Passw0rd1") "Alice" "A" None "pet_owner"
         true true false 0 None.

Definition bob : User :=
  mkUser "bob@x.com" (hasher "Passw0rd2") "Bob" "B" None "pet_owner"
         false false false 0 None.

Definition carol : User :=
  mkUser "carol@x.com" (hasher "Passw0rd3") "Carol" "C" None "staff"
         true false false 0 None.

Definition bob_live : EmailVerification :=
  mkEmailVerification 2 100 (Some 0) false (Some 5000).

Definition alice_consumed : EmailVerification :=
  mkEmailVerification 1 101 (Some 0) true (Some 10).

Definition bob_stale : EmailVerification :=
  mkEmailVerification 2 102 (Some 0) false (Some 10).

Definition reset_live : PasswordReset :=
  mkPasswordReset 1 200 (Some 0) false (Some 5000).

Definition reset_used : PasswordReset :=
  mkPasswordReset 1 201 (Some 0) true (Some 5000).

Definition reset_stale : PasswordReset :=
  mkPasswordReset 1 202 (Some 0) false (Some 10).

Definition sample_db : DB :=
  mkDB (<[1%N := alice]> (<[2%N := bob]> (<[3%N := carol]> ∅))) 4
       (<[1%N := bob_live]> (<[2%N := alice_consumed]> (<[3%N := bob_stale]> ∅))) 4
       (<[1%N := reset_live]> (<[2%N := reset_used]> (<[3%N := reset_stale]> ∅))) 4.

Definition sample_world : World := mkWorld sample_env sample_db 0 0 0 [] 0.

Definition dave_registration : RegistrationData :=
  mkRegistrationData " Dave@X.com " "Passw0rd4" "Passw0rd4" "Dave" "D"
                     (Some (Some "+1 (555) 123-4567")) None.

End Sample.

(** ** Invariants *)

(** No two rows of the users table carry the same address (the [unique=True]
    of [User.email]). *)
Definition emails_unique (d : DB) : Prop :=
  map_Forall (fun k1 u1 =>
    map_Forall (fun k2 u2 => u_email u1 = u_email u2 -> k1 = k2) (users d)) (users d).

(** * Properties *)

(** ** Strings *)

Lemma append_cons c a x : String c a +:+ x = String c (a +:+ x).
Proof. reflexivity. Qed.

Lemma lower_char_not_upper c : is_upper (lower_char c) = false.
Proof. destruct c as [[] [] [] [] [] [] [] []]; reflexivity. Qed.

Lemma lower_char_fixed c : is_upper c = false -> lower_char c = c.
Proof. unfold lower_char. intros ->. reflexivity. Qed.

Lemma all_chars_lower s : all_chars not_upper (lower s) = true.
Proof.
  induction s as [|c s IH]; [reflexivity|].
  cbn [lower all_chars]. unfold not_upper at 1.
  rewrite lower_char_not_upper, IH. reflexivity.
Qed.

Lemma lower_fixed s : all_chars not_upper s = true -> lower s = s.
Proof.
  induction s as [|c s IH]; [reflexivity|].
  cbn [lower all_chars]. intros [Hc Hs]%andb_prop.
  rewrite IH by exact Hs. rewrite lower_char_fixed; [reflexivity|].
  unfold not_upper in Hc. destruct (is_upper c); [discriminate | reflexivity].
Qed.

Lemma all_chars_lstrip p s : all_chars p s = true -> all_chars p (lstrip s) = true.
Proof.
  induction s as [|c s IH]; [reflexivity|].
  intros H. cbn [lstrip]. destruct (is_space c); [|exact H].
  cbn [all_chars] in H. apply andb_prop in H as [_ H]. auto.
Qed.

Lemma all_chars_rstrip p s : all_chars p s = true -> all_chars p (rstrip s) = true.
Proof.
  induction s as [|c s IH]; [reflexivity|].
  cbn [all_chars rstrip]. intros [Hc Hs]%andb_prop. specialize (IH Hs).
  destruct (rstrip s) as [|c' r].
  - destruct (is_space c); [reflexivity|]. cbn [all_chars]. rewrite Hc. reflexivity.
  - cbn [all_chars] in *. rewrite Hc. exact IH.
Qed.

Lemma all_chars_strip p s : all_chars p s = true -> all_chars p (strip s) = true.
Proof. intros H. unfold strip. apply all_chars_rstrip, all_chars_lstrip, H. Qed.

Lemma lstrip_head s :
  lstrip s = EmptyString \/ exists c r, lstrip s = String c r /\ is_space c = false.
Proof.
  induction s as [|c s IH]; [left; reflexivity|].
  cbn [lstrip]. destruct (is_space c) eqn:Hc; [exact IH|].
  right. exists c, s. split; [reflexivity | exact Hc].
Qed.

Lemma rstrip_idempotent s : rstrip (rstrip s) = rstrip s.
Proof.
  induction s as [|c s IH]; [reflexivity|].
  cbn [rstrip]. destruct (rstrip s) as [|c' r] eqn:Hr.
  - destruct (is_space c) eqn:Hc; [reflexivity|].
    cbn [rstrip]. rewrite Hc. reflexivity.
  - cbn [rstrip]. cbn [rstrip] in IH.
    destruct (rstrip r) as [|c'' r'] eqn:Hr'.
    + destruct (is_space c') eqn:Hc'; [discriminate IH|].
      injection IH as <-. reflexivity.
    + injection IH as <-. reflexivity.
Qed.

Lemma rstrip_keeps_head c r : is_space c = false ->
  exists r', rstrip (String c r) = String c r'.
Proof.
  intros Hc. cbn [rstrip]. destruct (rstrip r) as [|c' r'].
  - rewrite Hc. eexists; reflexivity.
  - eexists; reflexivity.
Qed.

Lemma strip_idempotent s : strip (strip s) = strip s.
Proof.
  unfold strip. destruct (lstrip_head s) as [-> | (c & r & -> & Hc)]; [reflexivity|].
  destruct (rstrip_keeps_head c r Hc) as [r' Hr']. rewrite Hr'.
  cbn [lstrip]. rewrite Hc, <- Hr'. apply rstrip_idempotent.
Qed.

Lemma rsplit_last_app sep s a b :
  rsplit_last sep s = Some (a, b) -> s = a +:+ String sep b.
Proof.
  revert a. induction s as [|c s IH]; intros a; [discriminate|].
  cbn [rsplit_last]. destruct (rsplit_last sep s) as [[a' b']|].
  - intros [= <- <-]. rewrite append_cons. f_equal. apply IH. reflexivity.
  - destruct (Ascii.eqb c sep) eqn:Hc; [|discriminate].
    intros [= <- <-]. apply Ascii.eqb_eq in Hc as ->. reflexivity.
Qed.

Lemma rsplit_last_all_chars p sep s a b :
  rsplit_last sep s = Some (a, b) -> all_chars p s = true -> all_chars p b = true.
Proof.
  revert a. induction s as [|c s IH]; intros a; [discriminate|].
  cbn [rsplit_last all_chars]. destruct (rsplit_last sep s) as [[a' b']|].
  - intros [= <- <-] [_ Hs]%andb_prop. eapply IH; [reflexivity | exact Hs].
  - destruct (Ascii.eqb c sep); [|discriminate].
    intros [= <- <-] [_ Hs]%andb_prop. exact Hs.
Qed.

(** An address that is already stripped and lower-cased is left as it is. *)
Lemma normalize_email_fixed s :
  UserManager.normalize_email (strip (lower s)) = strip (lower s).
Proof.
  unfold UserManager.normalize_email. rewrite strip_idempotent.
  destruct (rsplit_last "@" (strip (lower s))) as [[a b]|] eqn:Hsplit; [|reflexivity].
  rewrite (lower_fixed b).
  - symmetry. apply rsplit_last_app in Hsplit. exact Hsplit.
  - eapply rsplit_last_all_chars; [exact Hsplit|].
    apply all_chars_strip, all_chars_lower.
Qed.

(** ** Running handlers *)

Lemma bind_Ok {A B} (m : M A) (k : A -> M B) w a w' r :
  m w = (Ok a, w') -> k a w' = r -> bind m k w = r.
Proof. unfold bind. intros -> <-. reflexivity. Qed.

Lemma bind_Raise {A B} (m : M A) (k : A -> M B) w e w' :
  m w = (Raise e, w') -> bind m k w = (Raise e, w').
Proof. unfold bind. intros ->. reflexivity. Qed.

Lemma try_except_Ok {A} (m : M A) e h w a w' :
  m w = (Ok a, w') -> try_except m e h w = (Ok a, w').
Proof. unfold try_except. intros ->. reflexivity. Qed.

Lemma try_except_caught {A} (m : M A) e h w w' r :
  m w = (Raise e, w') -> h w' = r -> try_except m e h w = r.
Proof.
  unfold try_except. intros -> <-.
  destruct (decide (e = e)); [reflexivity | congruence].
Qed.

Lemma run_pair {A} (m : M A) w a : (m w).1 = a -> (m w).2 = w -> m w = (a, w).
Proof. destruct (m w) as [r w']. cbn. intros -> ->. reflexivity. Qed.

Lemma not_gtb x y : x <= y -> (x >? y) = false.
Proof. intros H. destruct (Z.gtb_spec x y); [lia | reflexivity]. Qed.

(** The first statement of a handler is the call of its serializer: with the
    serializer's result [H] and the lemma [L] that it leaves the world as it
    is, go on with the branch taken. *)
Ltac pass_serializer H L :=
  eapply bind_Ok; [apply run_pair; [exact H | apply L]|]; cbn beta iota.

(** ** Queries *)

Lemma get_unique_Ok {A} m (rows : gmap N A) k v :
  get_unique m rows = Ok (k, v) <-> rows = {[k := v]}.
Proof.
  unfold get_unique. split.
  - intros H. rewrite <- (list_to_map_to_list rows).
    destruct (map_to_list rows) as [|[k' v'] [|? ?]]; try discriminate.
    injection H as -> ->. cbn. apply insert_empty.
  - intros ->. rewrite map_to_list_singleton. reflexivity.
Qed.

Lemma get_unique_DoesNotExist {A} m (rows : gmap N A) :
  get_unique m rows = Raise (DoesNotExist m) <-> rows = ∅.
Proof.
  unfold get_unique. split.
  - intros H. apply map_to_list_empty_iff.
    destruct (map_to_list rows) as [|? [|? ?]]; [reflexivity | discriminate..].
  - intros ->. rewrite map_to_list_empty. reflexivity.
Qed.

(** Rewriting the one row that carries a token, without touching the token,
    leaves it the one row that carries the token. *)
Lemma ev_filter_token_rewrite token d k v v' :
  EmailVerification.objects_filter_token token d = {[k := v]} ->
  ev_token v' = ev_token v ->
  filter (fun kv : N * EmailVerification => ev_token kv.2 = token)
         (<[k := v']> (email_verifications d)) = {[k := v']}.
Proof.
  unfold EmailVerification.objects_filter_token. intros Hrows Htoken.
  assert (ev_token v = token) as Hv.
  { assert (filter (fun kv : N * EmailVerification => ev_token kv.2 = token)
                   (email_verifications d) !! k = Some v) as Hk
      by (rewrite Hrows; apply lookup_singleton_eq).
    apply map_lookup_filter_Some in Hk as [_ Hk]. exact Hk. }
  rewrite map_filter_insert_True by (cbn; congruence).
  rewrite Hrows. apply insert_singleton_eq.
Qed.

Lemma ev_get_token_Ok token w k v :
  EmailVerification.objects_get_token token w = (Ok (k, v), w) <->
  EmailVerification.objects_filter_token token (db w) = {[k := v]}.
Proof.
  unfold EmailVerification.objects_get_token, bind, get_db, lift.
  rewrite <- (get_unique_Ok MEmailVerification). split.
  - intros [= H]. exact H.
  - intros ->. reflexivity.
Qed.

(** ** Email verification *)

(** C2, as amended.  A request that presents a stored token whose
    [expires_at] is behind the clock never succeeds and changes nothing in
    the database: it is answered [ExpiredError] when the token has not been
    consumed, and [AlreadyVerifiedError] when it has. *)
Theorem expired_token_never_verifies w token k v expires_at :
  EmailVerification.objects_get_token token w = (Ok (k, v), w) ->
  ev_expires_at v = Some expires_at ->
  clock (env w) (reads w) > expires_at ->
  (EmailVerificationView.get token w).1 =
    Ok (if ev_is_verified v then VerifyEmail.AlreadyVerifiedError
        else VerifyEmail.ExpiredError)
  /\ db (EmailVerificationView.get token w).2 = db w.
Proof.
  intros Hget Hexp Hlate.
  unfold EmailVerificationView.get, try_except, bind. rewrite Hget. cbn [snd].
  destruct (ev_is_verified v); [split; reflexivity|].
  unfold EmailVerification.is_expired, bind, timezone_now. rewrite Hexp.
  unfold ret. apply Z.gtb_gt in Hlate. rewrite Hlate. split; reflexivity.
Qed.

Lemma expired_token_never_verifies_witness :
  (EmailVerificationView.get 102 Sample.sample_world).1 = Ok VerifyEmail.ExpiredError
  /\ db (EmailVerificationView.get 102 Sample.sample_world).2 = db Sample.sample_world.
Proof.
  apply (expired_token_never_verifies Sample.sample_world 102 3 Sample.bob_stale 10).
  - vm_compute. reflexivity.
  - reflexivity.
  - vm_compute. reflexivity.
Defined.

(** C2, as stated, fails: a consumed token presented after its expiry is
    answered [AlreadyVerifiedError], not [ExpiredError]. *)
Lemma consumed_expired_token_not_ExpiredError :
  exists w token k v expires_at,
    EmailVerification.objects_get_token token w = (Ok (k, v), w)
    /\ ev_expires_at v = Some expires_at
    /\ clock (env w) (reads w) > expires_at
    /\ (EmailVerificationView.get token w).1 = Ok VerifyEmail.AlreadyVerifiedError
    /\ (EmailVerificationView.get token w).1 <> Ok VerifyEmail.ExpiredError.
Proof.
  exists Sample.sample_world, 101%N, 2%N, Sample.alice_consumed, 10.
  repeat split; try (vm_compute; reflexivity).
  vm_compute. discriminate.
Qed.

Lemma ev_is_expired_run v expires_at w :
  ev_expires_at v = Some expires_at ->
  EmailVerification.is_expired v w =
    (Ok (clock (env w) (reads w) >? expires_at), set_reads (S (reads w)) w).
Proof.
  unfold EmailVerification.is_expired, bind, timezone_now. intros ->. reflexivity.
Qed.

Lemma user_get_pk_run pk u w :
  users (db w) !! pk = Some u -> User.objects_get_pk pk w = (Ok (pk, u), w).
Proof. unfold User.objects_get_pk, bind, get_db. intros ->. reflexivity. Qed.

Lemma ev_save_update_run k v expires_at w :
  ev_expires_at v = Some expires_at ->
  EmailVerification.save (Some k, v) w =
    (Ok (k, v),
     set_db (set_email_verifications (<[k := v]> (email_verifications (db w)))
                                     (email_verifications_seq (db w)) (db w)) w).
Proof. unfold EmailVerification.save, bind. cbn [snd]. intros ->. reflexivity. Qed.

(** C3.  A stored token that is neither consumed nor expired, presented
    twice in sequence: the first request succeeds and leaves the owner with
    [email_verified] and [is_active] set; the second is answered
    [AlreadyVerifiedError] and leaves the world, hence the token and the
    user, as the first request left it. *)
Theorem verify_twice w token k v expires_at u :
  EmailVerification.objects_get_token token w = (Ok (k, v), w) ->
  ev_is_verified v = false ->
  ev_expires_at v = Some expires_at ->
  clock (env w) (reads w) <= expires_at ->
  users (db w) !! ev_user v = Some u ->
  exists w1 u1,
    EmailVerificationView.get token w = (Ok (VerifyEmail.Success (u_email u)), w1)
    /\ users (db w1) !! ev_user v = Some u1
    /\ u_email_verified u1 = true /\ u_is_active u1 = true
    /\ EmailVerificationView.get token w1 = (Ok VerifyEmail.AlreadyVerifiedError, w1).
Proof.
  intros Hget Hnew Hexp Hnow Hu. apply not_gtb in Hnow.
  eexists _, (set_u_is_active true (set_u_email_verified true u)).
  split; [|split; [|split; [reflexivity|split; [reflexivity|]]]].
  - unfold EmailVerificationView.get. apply try_except_Ok.
    eapply bind_Ok; [exact Hget|]. cbn [snd fst]. rewrite Hnew.
    eapply bind_Ok; [apply ev_is_expired_run, Hexp|]. rewrite Hnow.
    eapply bind_Ok; [apply user_get_pk_run; exact Hu|].
    eapply bind_Ok; [reflexivity|].
    eapply bind_Ok; [eapply ev_save_update_run; exact Hexp|].
    eapply bind_Ok; [reflexivity|].
    reflexivity.
  - cbn [db set_db set_outbox set_reads users set_users set_email_verifications].
    apply lookup_insert_eq.
  - unfold EmailVerificationView.get. apply try_except_Ok.
    eapply bind_Ok.
    + apply ev_get_token_Ok. apply ev_get_token_Ok in Hget.
      unfold EmailVerification.objects_filter_token at 1.
      cbn [db set_db set_outbox set_reads email_verifications set_users
           set_email_verifications].
      eapply ev_filter_token_rewrite; [exact Hget | reflexivity].
    + reflexivity.
Qed.

Lemma verify_twice_witness :
  exists w1 u1,
    EmailVerificationView.get 100 Sample.sample_world
      = (Ok (VerifyEmail.Success "bob@x.com"), w1)
    /\ users (db w1) !! 2%N = Some u1
    /\ u_email_verified u1 = true /\ u_is_active u1 = true
    /\ EmailVerificationView.get 100 w1 = (Ok VerifyEmail.AlreadyVerifiedError, w1).
Proof.
  apply (verify_twice Sample.sample_world 100 1 Sample.bob_live 5000 Sample.bob).
  - vm_compute. reflexivity.
  - reflexivity.
  - reflexivity.
  - vm_compute. discriminate.
  - vm_compute. reflexivity.
Defined.

(** ** The [verify] method of the token *)

(** On a token that is not expired, [verify] marks the token and the owner's
    email verified, saves both and returns [True]. *)
Lemma verify_not_expired w k v expires_at u :
  ev_expires_at v = Some expires_at ->
  clock (env w) (reads w) <= expires_at ->
  users (db w) !! ev_user v = Some u ->
  EmailVerification.verify (k, v) w =
    (Ok (true, (k, set_ev_is_verified true v)),
     set_db (mkDB (<[ev_user v := set_u_email_verified true u]> (users (db w)))
                  (users_seq (db w))
                  (<[k := set_ev_is_verified true v]> (email_verifications (db w)))
                  (email_verifications_seq (db w))
                  (password_resets (db w)) (password_resets_seq (db w)))
            (set_reads (S (reads w)) w)).
Proof.
  intros Hexp Hnow Hu. apply not_gtb in Hnow.
  unfold EmailVerification.verify.
  eapply bind_Ok; [apply ev_is_expired_run, Hexp|]. cbn [snd fst]. rewrite Hnow.
  eapply bind_Ok; [apply user_get_pk_run; exact Hu|].
  eapply bind_Ok; [reflexivity|].
  eapply bind_Ok; [eapply ev_save_update_run; exact Hexp|].
  reflexivity.
Qed.

(** On an expired token, [verify] returns [False]; only the clock has been
    read. *)
Lemma verify_expired w k v expires_at :
  ev_expires_at v = Some expires_at ->
  clock (env w) (reads w) > expires_at ->
  EmailVerification.verify (k, v) w = (Ok (false, (k, v)), set_reads (S (reads w)) w).
Proof.
  intros Hexp Hlate. apply Z.gtb_gt in Hlate.
  unfold EmailVerification.verify.
  eapply bind_Ok; [apply ev_is_expired_run, Hexp|]. cbn [snd fst]. rewrite Hlate.
  reflexivity.
Qed.

(** C1.  [verify] on the live token of the unverified, inactive account of
    the sample: it returns [True], the token and the owner's email are marked
    verified and saved, and the owner is still inactive. *)
Theorem verify_leaves_user_inactive :
  (EmailVerification.verify (1%N, Sample.bob_live) Sample.sample_world).1
    = Ok (true, (1%N, set_ev_is_verified true Sample.bob_live))
  /\ email_verifications
       (db (EmailVerification.verify (1%N, Sample.bob_live) Sample.sample_world).2) !! 1%N
     = Some (set_ev_is_verified true Sample.bob_live)
  /\ users (db (EmailVerification.verify (1%N, Sample.bob_live) Sample.sample_world).2) !! 2%N
     = Some (set_u_email_verified true Sample.bob)
  /\ u_is_active (set_u_email_verified true Sample.bob) = false.
Proof. repeat split; vm_compute; reflexivity. Qed.

(** ** Serializers leave the world as it is *)

Lemma reset_is_valid_world data w : (ResetPasswordSerializer.is_valid data w).2 = w.
Proof.
  unfold ResetPasswordSerializer.is_valid, bind, get_env, ret.
  repeat case_match; reflexivity.
Qed.

Lemma login_is_valid_world data w : (UserLoginSerializer.is_valid data w).2 = w.
Proof.
  unfold UserLoginSerializer.is_valid, bind, get_env, ret.
  repeat case_match; reflexivity.
Qed.

Lemma forgot_is_valid_world data w : (ForgotPasswordSerializer.is_valid data w).2 = w.
Proof.
  unfold ForgotPasswordSerializer.is_valid, bind, get_env, ret.
  repeat case_match; reflexivity.
Qed.

(** ** Password reset *)

Lemma pr_is_expired_run r expires_at w :
  pr_expires_at r = Some expires_at ->
  PasswordReset.is_expired r w =
    (Ok (clock (env w) (reads w) >? expires_at), set_reads (S (reads w)) w).
Proof.
  unfold PasswordReset.is_expired, bind, timezone_now. intros ->. reflexivity.
Qed.

Lemma can_reset_run r expires_at w :
  pr_expires_at r = Some expires_at ->
  (PasswordReset.can_reset r w).1 =
    Ok (negb (pr_is_used r) && negb (clock (env w) (reads w) >? expires_at)).
Proof.
  intros Hexp. unfold PasswordReset.can_reset.
  destruct (pr_is_used r); [reflexivity|]. cbn [negb andb].
  erewrite bind_Ok; [|apply pr_is_expired_run, Hexp|reflexivity]. reflexivity.
Qed.

(** C4.  For a reset token, [can_reset] returns a result, and that result is
    [True] exactly when the token is unused and the clock has not passed
    [expires_at].  A reset request that presents a stored token for which
    [can_reset] is [False] is answered [AlreadyUsedError] when the token is
    used and [ExpiredError] otherwise, and leaves the database, so the
    password hash of every user, as it was. *)
Theorem reset_requires_can_reset :
  (forall r expires_at w,
      pr_expires_at r = Some expires_at ->
      exists b, (PasswordReset.can_reset r w).1 = Ok b
                /\ (b = true <->
                    pr_is_used r = false /\ clock (env w) (reads w) <= expires_at))
  /\ (forall w data validated k r expires_at,
        (ResetPasswordSerializer.is_valid data w).1 = Ok (inr validated) ->
        PasswordReset.objects_get_token (reset_token validated) w = (Ok (k, r), w) ->
        pr_expires_at r = Some expires_at ->
        (PasswordReset.can_reset r w).1 = Ok false ->
        (ResetPasswordView.post data w).1 =
          Ok (if pr_is_used r then ResetPassword.AlreadyUsedError
              else ResetPassword.ExpiredError)
        /\ db (ResetPasswordView.post data w).2 = db w).
Proof.
  split.
  - intros r expires_at w Hexp. eexists. split; [apply can_reset_run, Hexp|].
    destruct (pr_is_used r); cbn [negb andb].
    + split; [discriminate | intros [? _]; discriminate].
    + destruct (Z.gtb_spec (clock (env w) (reads w)) expires_at); cbn [negb].
      * split; [discriminate | intros [_ ?]; lia].
      * split; [intros _; split; [reflexivity | assumption] | reflexivity].
  - intros w data validated k r expires_at Hvalid Hget Hexp Hcannot.
    rewrite (can_reset_run r expires_at w Hexp) in Hcannot.
    assert (ResetPasswordView.post data w =
            if pr_is_used r then (Ok ResetPassword.AlreadyUsedError, w)
            else (Ok ResetPassword.ExpiredError, set_reads (S (reads w)) w)) as ->.
    { unfold ResetPasswordView.post.
      pass_serializer Hvalid reset_is_valid_world. destruct (pr_is_used r) eqn:Hused.
      - apply try_except_Ok. eapply bind_Ok; [exact Hget|].
        cbn [snd]. rewrite Hused. reflexivity.
      - apply try_except_Ok. eapply bind_Ok; [exact Hget|].
        cbn [snd]. rewrite Hused.
        eapply bind_Ok; [apply pr_is_expired_run, Hexp|].
        cbn [negb andb] in Hcannot.
        destruct (clock (env w) (reads w) >? expires_at); [reflexivity | discriminate]. }
    destruct (pr_is_used r); split; reflexivity.
Qed.

Lemma reset_requires_can_reset_witness :
  (exists b, (PasswordReset.can_reset Sample.reset_live Sample.sample_world).1 = Ok b
             /\ (b = true <->
                 pr_is_used Sample.reset_live = false
                 /\ clock Sample.sample_env 0 <= 5000))
  /\ ((ResetPasswordView.post (mkResetPasswordData 201 "NewPass1" "NewPass1")
                              Sample.sample_world).1
        = Ok ResetPassword.AlreadyUsedError
      /\ db (ResetPasswordView.post (mkResetPasswordData 201 "NewPass1" "NewPass1")
                                    Sample.sample_world).2
         = db Sample.sample_world)
  /\ ((ResetPasswordView.post (mkResetPasswordData 202 "NewPass1" "NewPass1")
                              Sample.sample_world).1
        = Ok ResetPassword.ExpiredError
      /\ db (ResetPasswordView.post (mkResetPasswordData 202 "NewPass1" "NewPass1")
                                    Sample.sample_world).2
         = db Sample.sample_world).
Proof.
  split; [|split].
  - apply (proj1 reset_requires_can_reset Sample.reset_live 5000 Sample.sample_world).
    reflexivity.
  - apply (proj2 reset_requires_can_reset Sample.sample_world
                 (mkResetPasswordData 201 "NewPass1" "NewPass1")
                 (mkResetPasswordData 201 "NewPass1" "NewPass1")
                 2%N Sample.reset_used 5000);
      vm_compute; reflexivity.
  - apply (proj2 reset_requires_can_reset Sample.sample_world
                 (mkResetPasswordData 202 "NewPass1" "NewPass1")
                 (mkResetPasswordData 202 "NewPass1" "NewPass1")
                 3%N Sample.reset_stale 10);
      vm_compute; reflexivity.
Defined.

(** ** Login *)

Lemma login_found w data validated k u :
  (UserLoginSerializer.is_valid data w).1 = Ok (inr validated) ->
  User.objects_get_email (login_email validated) w = (Ok (k, u), w) ->
  UserLoginView.post data w =
    if negb (u_email_verified u) then (Ok Login.UnverifiedEmailError, w)
    else if negb (u_is_active u) then (Ok Login.DeactivatedError, w)
    else if negb (check_password_hash (env w) (login_password validated) (u_password u))
         then (Ok Login.InvalidCredentialsError,
               set_password_checks (S (password_checks w)) w)
         else UserLoginView.post data w.
Proof.
  intros Hvalid Hget.
  destruct (u_email_verified u) eqn:Hverified; cbn [negb];
    [destruct (u_is_active u) eqn:Hactive; cbn [negb];
     [destruct (check_password_hash (env w) (login_password validated) (u_password u))
        eqn:Hcheck; cbn [negb]; [reflexivity|] |] |];
    unfold UserLoginView.post;
    pass_serializer Hvalid login_is_valid_world;
    (eapply bind_Ok;
     [apply try_except_Ok; eapply bind_Ok; [exact Hget | reflexivity]|]);
    cbn [snd]; rewrite Hverified; cbn [negb]; try reflexivity;
    rewrite Hactive; cbn [negb]; try reflexivity.
  eapply bind_Ok; [reflexivity|]. rewrite Hcheck. reflexivity.
Qed.

Lemma login_unknown w data validated :
  (UserLoginSerializer.is_valid data w).1 = Ok (inr validated) ->
  User.objects_get_email (login_email validated) w = (Raise (DoesNotExist MUser), w) ->
  UserLoginView.post data w = (Ok Login.InvalidCredentialsError, w).
Proof.
  intros Hvalid Hget. unfold UserLoginView.post.
  pass_serializer Hvalid login_is_valid_world.
  eapply bind_Ok.
  - eapply try_except_caught; [|reflexivity].
    eapply bind_Raise. exact Hget.
  - reflexivity.
Qed.

(** C6.  Among the login requests that pass the serializer: a correct
    password on an account whose email is not verified is answered
    [UnverifiedEmailError]; an account with a verified email that is not
    active is answered [DeactivatedError]; and an unknown email and a wrong
    password on a loginable account receive one and the same
    [InvalidCredentialsError] response. *)
Theorem login_failures w :
  (forall data validated k u,
      (UserLoginSerializer.is_valid data w).1 = Ok (inr validated) ->
      User.objects_get_email (login_email validated) w = (Ok (k, u), w) ->
      check_password_hash (env w) (login_password validated) (u_password u) = true ->
      u_email_verified u = false ->
      (UserLoginView.post data w).1 = Ok Login.UnverifiedEmailError)
  /\ (forall data validated k u,
        (UserLoginSerializer.is_valid data w).1 = Ok (inr validated) ->
        User.objects_get_email (login_email validated) w = (Ok (k, u), w) ->
        u_email_verified u = true ->
        u_is_active u = false ->
        (UserLoginView.post data w).1 = Ok Login.DeactivatedError)
  /\ (forall data1 validated1 data2 validated2 k u,
        (UserLoginSerializer.is_valid data1 w).1 = Ok (inr validated1) ->
        User.objects_get_email (login_email validated1) w
          = (Raise (DoesNotExist MUser), w) ->
        (UserLoginSerializer.is_valid data2 w).1 = Ok (inr validated2) ->
        User.objects_get_email (login_email validated2) w = (Ok (k, u), w) ->
        u_email_verified u = true ->
        u_is_active u = true ->
        check_password_hash (env w) (login_password validated2) (u_password u) = false ->
        (UserLoginView.post data1 w).1 = Ok Login.InvalidCredentialsError
        /\ (UserLoginView.post data2 w).1 = (UserLoginView.post data1 w).1).
Proof.
  split; [|split].
  - intros data validated k u Hvalid Hget _ Hverified.
    rewrite (login_found w data validated k u Hvalid Hget), Hverified. reflexivity.
  - intros data validated k u Hvalid Hget Hverified Hactive.
    rewrite (login_found w data validated k u Hvalid Hget), Hverified, Hactive.
    reflexivity.
  - intros data1 validated1 data2 validated2 k u Hvalid1 Hget1 Hvalid2 Hget2
           Hverified Hactive Hcheck.
    rewrite (login_unknown w data1 validated1 Hvalid1 Hget1).
    rewrite (login_found w data2 validated2 k u Hvalid2 Hget2), Hverified, Hactive, Hcheck.
    split; reflexivity.
Qed.

Lemma login_failures_witness :
  (UserLoginView.post (mkLoginData "Bob@x.com " "Passw0rd2") Sample.sample_world).1
    = Ok Login.UnverifiedEmailError
  /\ (UserLoginView.post (mkLoginData "carol@x.com" "Passw0rd3") Sample.sample_world).1
     = Ok Login.DeactivatedError
  /\ ((UserLoginView.post (mkLoginData "nobody@x.com" "Passw0rd1") Sample.sample_world).1
        = Ok Login.InvalidCredentialsError
      /\ (UserLoginView.post (mkLoginData "alice@x.com" "wrong") Sample.sample_world).1
         = (UserLoginView.post (mkLoginData "nobody@x.com" "Passw0rd1")
                               Sample.sample_world).1).
Proof.
  destruct (login_failures Sample.sample_world) as (Hunverified & Hdeactivated & Hinvalid).
  split; [|split].
  - apply (Hunverified (mkLoginData "Bob@x.com " "Passw0rd2")
                       (mkLoginData "bob@x.com" "Passw0rd2") 2%N Sample.bob);
      vm_compute; reflexivity.
  - apply (Hdeactivated (mkLoginData "carol@x.com" "Passw0rd3")
                        (mkLoginData "carol@x.com" "Passw0rd3") 3%N Sample.carol);
      vm_compute; reflexivity.
  - apply (Hinvalid (mkLoginData "nobody@x.com" "Passw0rd1")
                    (mkLoginData "nobody@x.com" "Passw0rd1")
                    (mkLoginData "alice@x.com" "wrong")
                    (mkLoginData "alice@x.com" "wrong") 1%N Sample.alice);
      vm_compute; reflexivity.
Defined.

(** C10.  A login request that passes the serializer and names an account
    whose email is not verified is answered [UnverifiedEmailError] whatever
    the password, and the world is left as it was: in particular the
    password hasher has not been called.  The answer differs from the one an
    unknown email receives. *)
Theorem unverified_login_skips_password_check w data validated k u :
  (UserLoginSerializer.is_valid data w).1 = Ok (inr validated) ->
  User.objects_get_email (login_email validated) w = (Ok (k, u), w) ->
  u_email_verified u = false ->
  UserLoginView.post data w = (Ok Login.UnverifiedEmailError, w)
  /\ password_checks (UserLoginView.post data w).2 = password_checks w
  /\ (forall data' validated',
        (UserLoginSerializer.is_valid data' w).1 = Ok (inr validated') ->
        User.objects_get_email (login_email validated') w
          = (Raise (DoesNotExist MUser), w) ->
        (UserLoginView.post data' w).1 <> (UserLoginView.post data w).1).
Proof.
  intros Hvalid Hget Hverified.
  rewrite (login_found w data validated k u Hvalid Hget), Hverified. cbn [negb].
  split; [reflexivity | split; [reflexivity|]].
  intros data' validated' Hvalid' Hget'.
  rewrite (login_unknown w data' validated' Hvalid' Hget'). discriminate.
Qed.

Lemma unverified_login_skips_password_check_witness :
  UserLoginView.post (mkLoginData "bob@x.com" "not the password") Sample.sample_world
    = (Ok Login.UnverifiedEmailError, Sample.sample_world)
  /\ password_checks
       (UserLoginView.post (mkLoginData "bob@x.com" "not the password")
                           Sample.sample_world).2
     = password_checks Sample.sample_world
  /\ (forall data' validated',
        (UserLoginSerializer.is_valid data' Sample.sample_world).1 = Ok (inr validated') ->
        User.objects_get_email (login_email validated') Sample.sample_world
          = (Raise (DoesNotExist MUser), Sample.sample_world) ->
        (UserLoginView.post data' Sample.sample_world).1
        <> (UserLoginView.post (mkLoginData "bob@x.com" "not the password")
                               Sample.sample_world).1).
Proof.
  apply (unverified_login_skips_password_check
           Sample.sample_world
           (mkLoginData "bob@x.com" "not the password")
           (mkLoginData "bob@x.com" "not the password") 2%N Sample.bob);
    vm_compute; reflexivity.
Defined.

(** ** Forgotten password *)

Lemma pr_create_run user w :
  PasswordReset.objects_filter_token (uuid4 (env w) (draws w)) (db w) = ∅ ->
  let row := mkPasswordReset user.1 (uuid4 (env w) (draws w))
               (Some (clock (env w) (S (reads w)))) false
               (Some (clock (env w) (reads w) + timedelta_hours 1)) in
  PasswordReset.objects_create user w =
    (Ok (password_resets_seq (db w), row),
     set_db (set_password_resets
               (<[password_resets_seq (db w) := row]> (password_resets (db w)))
               (N.succ (password_resets_seq (db w))) (db w))
            (set_reads (S (S (reads w))) (set_draws (S (draws w)) w))).
Proof.
  intros Hfresh row.
  unfold PasswordReset.objects_create, PasswordReset.save, PasswordReset.super_save.
  unfold bind, uuid_uuid4, timezone_now, get_db, put_db, ret.
  cbn [fst snd pr_expires_at pr_token set_pr_created_at set_pr_expires_at
       env db reads draws set_reads set_draws].
  rewrite bool_decide_eq_true_2 by exact Hfresh.
  reflexivity.
Qed.

(** C7.  Two forgotten-password requests that pass the serializer, the
    first naming an existing account and the second an address of no account,
    receive the same response; the identifier drawn for the reset token is
    assumed fresh. *)
Theorem forgot_password_hides_existence w data1 validated1 data2 validated2 user :
  (ForgotPasswordSerializer.is_valid data1 w).1 = Ok (inr validated1) ->
  (ForgotPasswordSerializer.is_valid data2 w).1 = Ok (inr validated2) ->
  User.objects_get_email (forgot_email validated1) w = (Ok user, w) ->
  User.objects_get_email (forgot_email validated2) w = (Raise (DoesNotExist MUser), w) ->
  PasswordReset.objects_filter_token (uuid4 (env w) (draws w)) (db w) = ∅ ->
  (ForgotPasswordView.post data1 w).1 = (ForgotPasswordView.post data2 w).1
  /\ (ForgotPasswordView.post data1 w).1 = Ok ForgotPassword.Success.
Proof.
  intros Hvalid1 Hvalid2 Hget1 Hget2 Hfresh.
  assert (ForgotPasswordView.post data2 w = (Ok ForgotPassword.Success, w)) as Hrun2.
  { unfold ForgotPasswordView.post.
    pass_serializer Hvalid2 forgot_is_valid_world. eapply bind_Ok.
    - eapply try_except_caught; [eapply bind_Raise; exact Hget2 | reflexivity].
    - reflexivity. }
  assert (exists w', ForgotPasswordView.post data1 w = (Ok ForgotPassword.Success, w'))
    as [w' Hrun1].
  { eexists. unfold ForgotPasswordView.post.
    pass_serializer Hvalid1 forgot_is_valid_world. eapply bind_Ok.
    - apply try_except_Ok.
      eapply bind_Ok; [exact Hget1|].
      eapply bind_Ok; [apply pr_create_run; exact Hfresh|].
      eapply bind_Ok; [reflexivity|]. reflexivity.
    - reflexivity. }
  rewrite Hrun1, Hrun2. split; reflexivity.
Qed.

Lemma forgot_password_hides_existence_witness :
  (ForgotPasswordView.post (mkForgotPasswordData "Alice@x.com") Sample.sample_world).1
    = (ForgotPasswordView.post (mkForgotPasswordData "nobody@x.com") Sample.sample_world).1
  /\ (ForgotPasswordView.post (mkForgotPasswordData "Alice@x.com") Sample.sample_world).1
     = Ok ForgotPassword.Success.
Proof.
  apply (forgot_password_hides_existence
           Sample.sample_world
           (mkForgotPasswordData "Alice@x.com") (mkForgotPasswordData "alice@x.com")
           (mkForgotPasswordData "nobody@x.com") (mkForgotPasswordData "nobody@x.com")
           (1%N, Sample.alice));
    vm_compute; reflexivity.
Defined.

(** ** Registration *)

Lemma validate_email_run value w :
  UserRegistrationSerializer.validate_email value w =
    (Ok (if negb (bool_decide (User.objects_filter_email (strip (lower value)) (db w) = ∅))
         then ValidationError "A user with this email already exists."
         else if negb (UserRegistrationSerializer.email_regex_match (strip (lower value)))
              then ValidationError "Enter a valid email address."
              else Valid (strip (lower value))), w).
Proof.
  unfold UserRegistrationSerializer.validate_email, User.objects_filter_email_exists,
    bind, get_db, ret.
  repeat case_match; reflexivity.
Qed.

Lemma registration_is_valid_world data w :
  (UserRegistrationSerializer.is_valid data w).2 = w.
Proof.
  unfold UserRegistrationSerializer.is_valid, bind, get_env, get_db.
  rewrite validate_email_run. unfold ret. repeat case_match; reflexivity.
Qed.

Lemma registration_is_valid_inv data w validated :
  (UserRegistrationSerializer.is_valid data w).1 = Ok (inr validated) ->
  reg_email validated = strip (lower (reg_email data))
  /\ User.objects_filter_email (reg_email validated) (db w) = ∅
  /\ UserRegistrationSerializer.email_regex_match (reg_email validated) = true.
Proof.
  unfold UserRegistrationSerializer.is_valid, bind, get_env, get_db.
  rewrite validate_email_run. unfold ret, UserRegistrationSerializer.validate.
  destruct (bool_decide (User.objects_filter_email (strip (lower (reg_email data))) (db w) = ∅)) eqn:Hfree; cbn [negb].
  2:{ repeat case_match; cbn; intros; simplify_eq. }
  destruct (UserRegistrationSerializer.email_regex_match (strip (lower (reg_email data)))) eqn:Hre; cbn [negb].
  2:{ repeat case_match; cbn; intros; simplify_eq. }
  apply bool_decide_eq_true_1 in Hfree.
  repeat case_match; cbn; intros; simplify_eq; cbn; auto.
Qed.

Lemma email_regex_nonempty s :
  UserRegistrationSerializer.email_regex_match s = true -> is_empty s = false.
Proof. destruct s; [discriminate | reflexivity]. Qed.

Lemma ev_create_run user w :
  EmailVerification.objects_filter_token (uuid4 (env w) (draws w)) (db w) = ∅ ->
  let row := mkEmailVerification user.1 (uuid4 (env w) (draws w))
               (Some (clock (env w) (S (reads w)))) false
               (Some (clock (env w) (reads w) + timedelta_hours 24)) in
  EmailVerification.objects_create user w =
    (Ok (email_verifications_seq (db w), row),
     set_db (set_email_verifications
               (<[email_verifications_seq (db w) := row]> (email_verifications (db w)))
               (N.succ (email_verifications_seq (db w))) (db w))
            (set_reads (S (S (reads w))) (set_draws (S (draws w)) w))).
Proof.
  intros Hfresh row.
  unfold EmailVerification.objects_create, EmailVerification.save, EmailVerification.super_save.
  unfold bind, uuid_uuid4, timezone_now, get_db, put_db, ret.
  cbn [fst snd ev_expires_at ev_token set_ev_created_at set_ev_expires_at
       env db reads draws set_reads set_draws].
  rewrite bool_decide_eq_true_2 by exact Hfresh.
  reflexivity.
Qed.

Lemma create_run validated w :
  is_empty (reg_email validated) = false ->
  UserManager.normalize_email (reg_email validated) = reg_email validated ->
  User.objects_filter_email (reg_email validated) (db w) = ∅ ->
  let user := mkUser (reg_email validated)
                (make_password (env w) (reg_password validated))
                (reg_first_name validated) (reg_last_name validated)
                (default (Some EmptyString) (reg_phone_number validated))
                (default "pet_owner" (reg_user_type validated))
                false false false (clock (env w) (reads w)) None in
  UserRegistrationSerializer.create validated w =
    (Ok (users_seq (db w), user),
     set_db (set_users (<[users_seq (db w) := user]> (users (db w)))
                       (N.succ (users_seq (db w))) (db w))
            (set_reads (S (reads w)) w)).
Proof.
  intros Hnonempty Hnormal Hfree user.
  unfold UserRegistrationSerializer.create, UserManager.create_user.
  rewrite Hnonempty, Hnormal.
  unfold User.set_password, User.save, bind, timezone_now, get_db, put_db, ret.
  cbn [fst snd u_email set_u_password env db reads set_reads
       UserManager.first_name UserManager.last_name UserManager.phone_number
       UserManager.user_type UserManager.is_active UserManager.email_verified].
  rewrite bool_decide_eq_true_2 by exact Hfree.
  reflexivity.
Qed.

(** C5, as amended.  A registration request that passes validation creates
    a user with [is_active] and [email_verified] both false, and leaves
    exactly one verification token for that user; the token is not consumed
    and its [expires_at] is 24 hours after the clock value that [save] read,
    while [created_at] is the value of the next read of the clock, so that
    [expires_at] is [created_at] plus 24 hours when the clock stood still
    between the two reads.  The key the user receives is assumed unused by
    the stored tokens, and the identifier drawn for the token fresh. *)
Theorem registration_creates_pending_account w data validated :
  (UserRegistrationSerializer.is_valid data w).1 = Ok (inr validated) ->
  EmailVerification.objects_filter_user (users_seq (db w)) (db w) = ∅ ->
  EmailVerification.objects_filter_token (uuid4 (env w) (draws w)) (db w) = ∅ ->
  exists w' user verification,
    UserRegistrationView.post data w =
      (Ok (Registration.Success (reg_email validated)
                                (mail_delivered (env w) (length (outbox w)))), w')
    /\ users (db w') !! users_seq (db w) = Some user
    /\ u_email user = reg_email validated
    /\ u_is_active user = false
    /\ u_email_verified user = false
    /\ EmailVerification.objects_filter_user (users_seq (db w)) (db w')
       = {[email_verifications_seq (db w) := verification]}
    /\ ev_is_verified verification = false
    /\ ev_expires_at verification
       = Some (clock (env w) (S (reads w)) + timedelta_hours 24)
    /\ ev_created_at verification = Some (clock (env w) (S (S (reads w))))
    /\ (clock (env w) (S (reads w)) = clock (env w) (S (S (reads w))) ->
        forall created_at,
          ev_created_at verification = Some created_at ->
          ev_expires_at verification = Some (created_at + timedelta_hours 24)).
Proof.
  intros Hvalid Hnone Hfresh.
  destruct (registration_is_valid_inv data w validated Hvalid) as (Hemail & Hfree & Hre).
  eexists _, _, _.
  split; [|split; [|split; [|split; [|split; [|split; [|split; [|split; [|split]]]]]]]].
  - unfold UserRegistrationView.post.
    pass_serializer Hvalid registration_is_valid_world.
    eapply bind_Ok.
    { apply create_run; [apply email_regex_nonempty, Hre | | exact Hfree].
      rewrite Hemail. apply normalize_email_fixed. }
    eapply bind_Ok.
    { apply ev_create_run. exact Hfresh. }
    eapply bind_Ok; [reflexivity|]. reflexivity.
  - cbn [db set_db set_outbox set_reads set_draws users set_users set_email_verifications].
    apply lookup_insert_eq.
  - reflexivity.
  - reflexivity.
  - reflexivity.
  - unfold EmailVerification.objects_filter_user in *.
    cbn [db set_db set_outbox set_reads set_draws users set_users email_verifications
         set_email_verifications fst].
    rewrite map_filter_insert_True by reflexivity.
    rewrite Hnone. apply insert_empty.
  - reflexivity.
  - reflexivity.
  - reflexivity.
  - cbn [ev_created_at ev_expires_at env reads set_db set_reads set_draws].
    intros Hfrozen created_at [= <-]. rewrite Hfrozen. reflexivity.
Qed.

Lemma registration_creates_pending_account_witness :
  exists w' user verification,
    UserRegistrationView.post Sample.dave_registration Sample.sample_world =
      (Ok (Registration.Success "dave@x.com" true), w')
    /\ users (db w') !! 4%N = Some user
    /\ u_email user = "dave@x.com"
    /\ u_is_active user = false
    /\ u_email_verified user = false
    /\ EmailVerification.objects_filter_user 4 (db w') = {[4%N := verification]}
    /\ ev_is_verified verification = false
    /\ ev_expires_at verification = Some (1001 + timedelta_hours 24)
    /\ ev_created_at verification = Some 1002
    /\ (1001 = 1002 ->
        forall created_at,
          ev_created_at verification = Some created_at ->
          ev_expires_at verification = Some (created_at + timedelta_hours 24)).
Proof.
  apply (registration_creates_pending_account
           Sample.sample_world Sample.dave_registration
           (mkRegistrationData "dave@x.com" "Passw0rd4" "Passw0rd4" "Dave" "D"
                               (Some (Some "+1 (555) 123-4567")) None));
    vm_compute; reflexivity.
Defined.

(** C5, as stated, fails: the token issued by the sample registration expires
    one microsecond less than 24 hours after its [created_at], the clock
    having advanced between the two reads. *)
Lemma registration_expiry_is_not_creation_plus_24h :
  EmailVerification.objects_filter_user 4
    (db (UserRegistrationView.post Sample.dave_registration Sample.sample_world).2)
  = {[4%N := mkEmailVerification 4 300 (Some 1002) false (Some 86400001001)]}
  /\ 86400001001 <> 1002 + timedelta_hours 24.
Proof.
  split.
  - vm_compute. reflexivity.
  - vm_compute. discriminate.
Qed.

(** ** Resending the verification mail *)

Lemma map_filter_filter_empty {A} (P Q : N * A -> Prop)
    `{!forall x, Decision (P x)} `{!forall x, Decision (Q x)} (m : gmap N A) :
  filter P m = ∅ -> filter P (filter Q m) = ∅.
Proof.
  intros Hempty. apply map_empty. intros i.
  destruct (filter P (filter Q m) !! i) as [x|] eqn:Hx; [|reflexivity].
  apply map_lookup_filter_Some in Hx as [Hx HP].
  apply map_lookup_filter_Some in Hx as [Hx _].
  pose proof (map_filter_empty_not_lookup _ m i x Hempty HP) as Hnot.
  contradiction.
Qed.

Lemma map_filter_complement_empty {A} (P : N * A -> Prop)
    `{!forall x, Decision (P x)} (m : gmap N A) :
  filter P (filter (fun x => ~ P x) m) = ∅.
Proof.
  apply map_empty. intros i.
  destruct (filter P (filter (fun x => ~ P x) m) !! i) as [x|] eqn:Hx; [|reflexivity].
  apply map_lookup_filter_Some in Hx as [Hx HP].
  apply map_lookup_filter_Some in Hx as [_ HnP].
  contradiction.
Qed.

(** C9.  A resend request naming an existing user: when the user is
    verified it is answered [AlreadyVerifiedError] and nothing changes;
    otherwise every verification token of the user is deleted and one is
    issued, so that afterwards the user has exactly one token, the fresh
    one, not consumed.  The identifier drawn for it is assumed fresh. *)
Theorem resend_verification_renews_token w email user :
  is_empty email = false ->
  User.objects_get_email (strip (lower email)) w = (Ok user, w) ->
  (u_email_verified user.2 = true ->
   ResendVerificationEmailView.post (Some email) w
     = (Ok ResendVerification.AlreadyVerifiedError, w))
  /\ (u_email_verified user.2 = false ->
      EmailVerification.objects_filter_token (uuid4 (env w) (draws w)) (db w) = ∅ ->
      exists w' verification,
        ResendVerificationEmailView.post (Some email) w
          = (Ok (ResendVerification.Sent (u_email user.2)
                                         (mail_delivered (env w) (length (outbox w)))), w')
        /\ EmailVerification.objects_filter_user user.1 (db w')
           = {[email_verifications_seq (db w) := verification]}
        /\ ev_token verification = uuid4 (env w) (draws w)
        /\ ev_is_verified verification = false).
Proof.
  intros Hnonempty Hget. split.
  - intros Hverified. unfold ResendVerificationEmailView.post. rewrite Hnonempty.
    apply try_except_Ok. eapply bind_Ok; [exact Hget|]. rewrite Hverified. reflexivity.
  - intros Hunverified Hfresh. eexists _, _. split; [|split; [|split]].
    + unfold ResendVerificationEmailView.post. rewrite Hnonempty.
      apply try_except_Ok. eapply bind_Ok; [exact Hget|]. rewrite Hunverified.
      eapply bind_Ok; [reflexivity|].
      eapply bind_Ok.
      { apply ev_create_run. unfold EmailVerification.objects_filter_token in *.
        cbn [db set_db env draws email_verifications set_email_verifications].
        apply map_filter_filter_empty. exact Hfresh. }
      eapply bind_Ok; [reflexivity|]. reflexivity.
    + unfold EmailVerification.objects_filter_user.
      cbn [db set_db set_outbox set_reads set_draws email_verifications
           email_verifications_seq set_email_verifications fst].
      rewrite map_filter_insert_True by reflexivity.
      rewrite (map_filter_complement_empty
                 (fun kv : N * EmailVerification => ev_user kv.2 = user.1)).
      apply insert_empty.
    + reflexivity.
    + reflexivity.
Qed.

Lemma resend_verification_renews_token_witness :
  ResendVerificationEmailView.post (Some "alice@x.com") Sample.sample_world
    = (Ok ResendVerification.AlreadyVerifiedError, Sample.sample_world)
  /\ exists w' verification,
       ResendVerificationEmailView.post (Some " Bob@x.com") Sample.sample_world
         = (Ok (ResendVerification.Sent "bob@x.com" true), w')
       /\ EmailVerification.objects_filter_user 2 (db w') = {[4%N := verification]}
       /\ ev_token verification = 300%N
       /\ ev_is_verified verification = false.
Proof.
  split.
  - apply (proj1 (resend_verification_renews_token
                    Sample.sample_world "alice@x.com" (1%N, Sample.alice)
                    eq_refl ltac:(vm_compute; reflexivity))).
    reflexivity.
  - apply (proj2 (resend_verification_renews_token
                    Sample.sample_world " Bob@x.com" (2%N, Sample.bob)
                    eq_refl ltac:(vm_compute; reflexivity)));
      vm_compute; reflexivity.
Defined.

Lemma resend_unknown_email w email :
  is_empty email = false ->
  User.objects_get_email (strip (lower email)) w = (Raise (DoesNotExist MUser), w) ->
  ResendVerificationEmailView.post (Some email) w = (Ok ResendVerification.UnknownEmail, w).
Proof.
  intros Hnonempty Hget. unfold ResendVerificationEmailView.post. rewrite Hnonempty.
  eapply try_except_caught; [eapply bind_Raise; exact Hget | reflexivity].
Qed.

(** C8.  On the sample, the resend request for the address of an unverified
    account and the one for an address of no account are both answered with
    a success flag and status 200, but by different responses: the messages
    differ, and only the first carries the [email] and [email_sent] fields. *)
Theorem resend_responses_differ :
  (ResendVerificationEmailView.post (Some "bob@x.com") Sample.sample_world).1
    = Ok (ResendVerification.Sent "bob@x.com" true)
  /\ (ResendVerificationEmailView.post (Some "nobody@x.com") Sample.sample_world).1
     = Ok ResendVerification.UnknownEmail
  /\ ResendVerification.Sent "bob@x.com" true <> ResendVerification.UnknownEmail.
Proof.
  split; [|split].
  - vm_compute. reflexivity.
  - vm_compute. reflexivity.
  - discriminate.
Qed.

(** * Further properties of the handlers *)

(** ** The address pattern of registration *)

Lemma split_first_app sep s a b :
  split_first sep s = Some (a, b) -> s = a +:+ String sep b.
Proof.
  revert a. induction s as [|c s IH]; intros a; [discriminate|].
  cbn [split_first]. destruct (Ascii.eqb c sep) eqn:Hc.
  - intros [= <- <-]. apply Ascii.eqb_eq in Hc as ->. reflexivity.
  - destruct (split_first sep s) as [[a' b']|]; [|discriminate].
    intros [= <- <-]. rewrite append_cons. f_equal. apply IH. reflexivity.
Qed.

Lemma append_empty_l x : EmptyString +:+ x = x.
Proof. reflexivity. Qed.

Lemma split_first_intro sep a b :
  all_chars (fun c => negb (Ascii.eqb c sep)) a = true ->
  split_first sep (a +:+ String sep b) = Some (a, b).
Proof.
  induction a as [|c a IH]; intros Ha.
  - rewrite append_empty_l. cbn [split_first]. rewrite Ascii.eqb_refl. reflexivity.
  - cbn [all_chars] in Ha. apply andb_prop in Ha as [Hc Ha].
    rewrite append_cons. cbn [split_first].
    destruct (Ascii.eqb c sep); [discriminate|]. rewrite (IH Ha). reflexivity.
Qed.

Lemma rsplit_last_none sep b :
  all_chars (fun c => negb (Ascii.eqb c sep)) b = true -> rsplit_last sep b = None.
Proof.
  induction b as [|c b IH]; [reflexivity|].
  cbn [all_chars rsplit_last]. intros [Hc Hb]%andb_prop.
  rewrite (IH Hb). destruct (Ascii.eqb c sep); [discriminate | reflexivity].
Qed.

Lemma rsplit_last_intro sep a b :
  all_chars (fun c => negb (Ascii.eqb c sep)) b = true ->
  rsplit_last sep (a +:+ String sep b) = Some (a, b).
Proof.
  intros Hb. induction a as [|c a IH].
  - rewrite append_empty_l. cbn [rsplit_last].
    rewrite (rsplit_last_none sep b Hb), Ascii.eqb_refl. reflexivity.
  - rewrite append_cons. cbn [rsplit_last]. rewrite IH. reflexivity.
Qed.

Lemma all_chars_impl (p q : ascii -> bool) s :
  (forall c, p c = true -> q c = true) -> all_chars p s = true -> all_chars q s = true.
Proof.
  intros Hpq. induction s as [|c s IH]; [reflexivity|].
  cbn [all_chars]. intros [Hc Hs]%andb_prop. rewrite (Hpq c Hc), (IH Hs). reflexivity.
Qed.

Lemma email_local_char_not_at c :
  UserRegistrationSerializer.email_local_char c = true -> negb (Ascii.eqb c "@") = true.
Proof. destruct c as [[] [] [] [] [] [] [] []]; vm_compute; congruence. Qed.

Lemma is_alpha_not_dot c : is_alpha c = true -> negb (Ascii.eqb c ".") = true.
Proof. destruct c as [[] [] [] [] [] [] [] []]; vm_compute; congruence. Qed.

(** X1.  On the stripped value it is applied to, the address test of
    registration accepts exactly the strings of the pattern
    [^[a-zA-Z0-9._%+-]+@[a-zA-Z0-9.-]+\.[a-zA-Z]{2,}$]: a non-empty local
    part, [@], a non-empty domain, a dot, and at least two letters. *)
Theorem email_regex_match_shape value :
  UserRegistrationSerializer.email_regex_match value = true <->
  exists local_part domain tld,
    value = local_part +:+ String "@" (domain +:+ String "." tld)
    /\ is_empty local_part = false
    /\ all_chars UserRegistrationSerializer.email_local_char local_part = true
    /\ is_empty domain = false
    /\ all_chars UserRegistrationSerializer.email_domain_char domain = true
    /\ (2 <= String.length tld)%nat
    /\ all_chars is_alpha tld = true.
Proof.
  unfold UserRegistrationSerializer.email_regex_match. split.
  - destruct (split_first "@" value) as [[local_part rest]|] eqn:Hat; [|discriminate].
    destruct (rsplit_last "." rest) as [[domain tld]|] eqn:Hdot;
      [|rewrite andb_false_r; discriminate].
    intros H. apply andb_prop in H as [H Hrest].
    apply andb_prop in H as [Hl Hlc].
    apply andb_prop in Hrest as [Hrest Htld].
    apply andb_prop in Hrest as [Hrest Hlen].
    apply andb_prop in Hrest as [Hd Hdc].
    exists local_part, domain, tld.
    apply split_first_app in Hat. apply rsplit_last_app in Hdot. subst rest.
    repeat split; try assumption.
    + destruct (is_empty local_part); [discriminate | reflexivity].
    + destruct (is_empty domain); [discriminate | reflexivity].
    + apply Nat.leb_le. assumption.
  - intros (local_part & domain & tld & -> & Hl & Hlc & Hd & Hdc & Hlen & Htld).
    rewrite split_first_intro
      by (eapply all_chars_impl; [apply email_local_char_not_at | exact Hlc]).
    rewrite rsplit_last_intro
      by (eapply all_chars_impl; [apply is_alpha_not_dot | exact Htld]).
    rewrite Hl, Hlc, Hd, Hdc, Htld. apply Nat.leb_le in Hlen. rewrite Hlen. reflexivity.
Qed.

(** ** Normalised addresses *)







(** ** Rejected registrations *)

Lemma registration_rejected_run data w errors :
  (UserRegistrationSerializer.is_valid data w).1 = Ok (inl errors) ->
  UserRegistrationView.post data w =
    (Ok (mkResponse [ ("success", VBool false); ("errors", errors_value errors) ] 400), w).
Proof.
  intros Hinvalid. unfold UserRegistrationView.post.
  pass_serializer Hinvalid registration_is_valid_world. reflexivity.
Qed.

Lemma has_error_app field l1 l2 :
  has_error field (l1 ++ l2) = has_error field l1 || has_error field l2.
Proof. unfold has_error. apply existsb_app. Qed.

Lemma has_error_hook {A} field declared message :
  has_error field (declared ++ hook_errors field declared (@ValidationError A message))
  = true.
Proof.
  rewrite has_error_app. unfold hook_errors.
  destruct (has_error field declared) eqn:Hdeclared; [reflexivity|].
  unfold has_error. cbn. rewrite String.eqb_refl. reflexivity.
Qed.


(** The result of [is_valid], in terms of the outcomes of the three hooks. *)
Lemma registration_is_valid_run data w :
  let email :=
    if negb (bool_decide (User.objects_filter_email (strip (lower (reg_email data)))
                                                    (db w) = ∅))
    then ValidationError "A user with this email already exists."
    else if negb (UserRegistrationSerializer.email_regex_match
                    (strip (lower (reg_email data))))
         then ValidationError "Enter a valid email address."
         else Valid (strip (lower (reg_email data))) in
  let password := UserRegistrationSerializer.validate_password (reg_password data) in
  let phone_number :=
    match reg_phone_number data with
    | Some v =>
        match UserRegistrationSerializer.validate_phone_number v with
        | Valid v' => Valid (Some v')
        | ValidationError message => ValidationError message
        end
    | None => Valid None
    end in
  let declared := registration_field_errors (env w) (users (db w)) data in
  let errors := declared ++ hook_errors "email" declared email
                ++ hook_errors "password" declared password
                ++ hook_errors "phone_number" declared phone_number in
  (UserRegistrationSerializer.is_valid data w).1 =
    match errors, email, password, phone_number with
    | [], Valid email, Valid password, Valid phone_number =>
        match UserRegistrationSerializer.validate
                (mkRegistrationData email password (reg_confirm_password data)
                   (reg_first_name data) (reg_last_name data) phone_number
                   (reg_user_type data)) with
        | Valid attrs => Ok (inr attrs)
        | ValidationError message => Ok (inl [("confirm_password", message)])
        end
    | _, _, _, _ => Ok (inl errors)
    end.
Proof.
  cbv zeta. unfold UserRegistrationSerializer.is_valid, bind, get_env, get_db.
  rewrite validate_email_run. unfold ret. repeat case_match; reflexivity.
Qed.

Lemma has_error_nil field : has_error field [] = false.
Proof. reflexivity. Qed.

(** X3.  A registration whose address, once lower-cased and stripped, is the
    address of a stored user is answered 400 with an error on [email], and
    the world is left as it was. *)
Theorem registration_duplicate_email_rejected w data :
  User.objects_filter_email (strip (lower (reg_email data))) (db w) <> ∅ ->
  exists errors,
    has_error "email" errors = true
    /\ UserRegistrationView.post data w =
         (Ok (mkResponse [ ("success", VBool false); ("errors", errors_value errors) ] 400),
          w).
Proof.
  intros Htaken.
  pose proof (registration_is_valid_run data w) as Hrun. cbv zeta in Hrun.
  rewrite bool_decide_eq_false_2 in Hrun by exact Htaken. cbn [negb] in Hrun.
  match type of Hrun with _ = match ?e with _ => _ end => exists e end.
  split.
  - rewrite app_assoc, has_error_app, has_error_hook. reflexivity.
  - apply registration_rejected_run. rewrite Hrun.
    match goal with |- match ?e with _ => _ end = _ => destruct e end; reflexivity.
Qed.

Lemma registration_duplicate_email_rejected_witness :
  exists errors,
    has_error "email" errors = true
    /\ UserRegistrationView.post
         (mkRegistrationData " ALICE@x.com" "Passw0rd9" "Passw0rd9" "Al" "A" None None)
         Sample.sample_world =
         (Ok (mkResponse [ ("success", VBool false); ("errors", errors_value errors) ] 400),
          Sample.sample_world).
Proof.
  apply (registration_duplicate_email_rejected
           Sample.sample_world
           (mkRegistrationData " ALICE@x.com" "Passw0rd9" "Passw0rd9" "Al" "A" None None)).
  vm_compute. discriminate.
Defined.





(** ** Unknown tokens and failed requests *)

Lemma pr_get_token_Ok token w k r :
  PasswordReset.objects_get_token token w = (Ok (k, r), w) <->
  PasswordReset.objects_filter_token token (db w) = {[k := r]}.
Proof.
  unfold PasswordReset.objects_get_token, bind, get_db, lift.
  rewrite <- (get_unique_Ok MPasswordReset). split.
  - intros [= H]. exact H.
  - intros ->. reflexivity.
Qed.

(** X5.  A verification request and a reset request that present a token
    carried by no stored row are answered [NotFoundError], and the world is
    left as it was. *)
Theorem unknown_tokens_not_found w :
  (forall token,
      EmailVerification.objects_filter_token token (db w) = ∅ ->
      EmailVerificationView.get token w = (Ok VerifyEmail.NotFoundError, w))
  /\ (forall data validated,
        (ResetPasswordSerializer.is_valid data w).1 = Ok (inr validated) ->
        PasswordReset.objects_filter_token (reset_token validated) (db w) = ∅ ->
        ResetPasswordView.post data w = (Ok ResetPassword.NotFoundError, w)).
Proof.
  split.
  - intros token Hnone. unfold EmailVerificationView.get.
    eapply try_except_caught; [|reflexivity].
    eapply bind_Raise. unfold EmailVerification.objects_get_token, bind, get_db, lift.
    rewrite (proj2 (get_unique_DoesNotExist MEmailVerification _) Hnone). reflexivity.
  - intros data validated Hvalid Hnone. unfold ResetPasswordView.post.
    pass_serializer Hvalid reset_is_valid_world.
    eapply try_except_caught; [|reflexivity].
    eapply bind_Raise. unfold PasswordReset.objects_get_token, bind, get_db, lift.
    rewrite (proj2 (get_unique_DoesNotExist MPasswordReset _) Hnone). reflexivity.
Qed.

Lemma unknown_tokens_not_found_witness :
  EmailVerificationView.get 999 Sample.sample_world
    = (Ok VerifyEmail.NotFoundError, Sample.sample_world)
  /\ ResetPasswordView.post (mkResetPasswordData 999 "NewPass1" "NewPass1")
                            Sample.sample_world
     = (Ok ResetPassword.NotFoundError, Sample.sample_world).
Proof.
  split.
  - apply (proj1 (unknown_tokens_not_found Sample.sample_world) 999%N).
    vm_compute. reflexivity.
  - apply (proj2 (unknown_tokens_not_found Sample.sample_world)
                 (mkResetPasswordData 999 "NewPass1" "NewPass1")
                 (mkResetPasswordData 999 "NewPass1" "NewPass1"));
      vm_compute; reflexivity.
Defined.

(** Case analysis of a handler unfolded to its primitives: every [match] of
    the goal, then of the hypotheses, is split and the impossible cases are
    closed. *)
Ltac split_handler :=
  repeat case_match; intros; simplify_eq; cbn in *; try done;
  repeat match goal with
         | H : (_, _) = (_, _) |- _ => injection H as ? ?; subst
         end;
  try done;
  repeat match goal with
         | H : context [match ?x with _ => _ end] |- _ =>
             destruct x eqn:?; simplify_eq; cbn in *
         end;
  try done.

(** X6.  Email verification writes only when it succeeds: whenever the
    handler returns a response other than 200, the database and the outbox
    are as they were. *)
Theorem email_verification_writes_only_on_success w token response w' :
  EmailVerificationView.get token w = (Ok response, w') ->
  status response <> 200 ->
  db w' = db w /\ outbox w' = outbox w.
Proof.
  unfold EmailVerificationView.get, try_except, bind,
    EmailVerification.objects_get_token, EmailVerification.is_expired,
    User.objects_get_pk, User.save, EmailVerification.save,
    EmailVerification.super_save, utils.send_welcome_email, send_mail,
    timezone_now, get_db, put_db, lift, ret, raise.
  cbn [fst snd]. split_handler.
Qed.

Lemma email_verification_writes_only_on_success_witness :
  db (EmailVerificationView.get 102 Sample.sample_world).2 = db Sample.sample_world
  /\ outbox (EmailVerificationView.get 102 Sample.sample_world).2
     = outbox Sample.sample_world.
Proof.
  apply (email_verification_writes_only_on_success
           Sample.sample_world 102 VerifyEmail.ExpiredError).
  - vm_compute. reflexivity.
  - vm_compute. discriminate.
Defined.

(** X7.  A password reset writes only when it succeeds: whenever the handler
    returns a response other than 200, the database and the outbox are as
    they were. *)
Theorem reset_password_writes_only_on_success w data response w' :
  ResetPasswordView.post data w = (Ok response, w') ->
  status response <> 200 ->
  db w' = db w /\ outbox w' = outbox w.
Proof.
  unfold ResetPasswordView.post. unfold bind at 1.
  destruct (ResetPasswordSerializer.is_valid data w) as [[[errors|validated]|e] w0] eqn:Hvalid;
    pose proof (reset_is_valid_world data w) as Hworld; rewrite Hvalid in Hworld;
    cbn [snd] in Hworld; subst w0; [| |discriminate].
  - unfold ret. intros [= <- <-] _. split; reflexivity.
  - unfold try_except, bind,
      PasswordReset.objects_get_token, PasswordReset.is_expired,
      User.objects_get_pk, User.save, User.set_password, PasswordReset.save,
      PasswordReset.super_save, utils.send_password_changed_email, send_mail,
      timezone_now, get_db, put_db, lift, ret, raise.
    cbn [fst snd]. clear Hvalid. split_handler.
Qed.

Lemma reset_password_writes_only_on_success_witness :
  db (ResetPasswordView.post (mkResetPasswordData 202 "NewPass1" "NewPass1")
                             Sample.sample_world).2 = db Sample.sample_world
  /\ outbox (ResetPasswordView.post (mkResetPasswordData 202 "NewPass1" "NewPass1")
                                    Sample.sample_world).2
     = outbox Sample.sample_world.
Proof.
  apply (reset_password_writes_only_on_success
           Sample.sample_world (mkResetPasswordData 202 "NewPass1" "NewPass1")
           ResetPassword.ExpiredError).
  - vm_compute. reflexivity.
  - vm_compute. discriminate.
Defined.

(** X8.  A login writes only when it succeeds: whenever the handler returns
    a response other than 200, the database is as it was and no session
    token has been issued. *)
Theorem login_writes_only_on_success w data response w' :
  UserLoginView.post data w = (Ok response, w') ->
  status response <> 200 ->
  db w' = db w /\ sessions w' = sessions w.
Proof.
  unfold UserLoginView.post. unfold bind at 1.
  destruct (UserLoginSerializer.is_valid data w) as [[[errors|validated]|e] w0] eqn:Hvalid;
    pose proof (login_is_valid_world data w) as Hworld; rewrite Hvalid in Hworld;
    cbn [snd] in Hworld; subst w0; [| |discriminate].
  - unfold ret. intros [= <- <-] _. split; reflexivity.
  - unfold try_except, bind, User.objects_get_email, User.check_password,
      User.save_last_login, RefreshToken_for_user,
      timezone_now, get_db, get_env, put_db, lift, ret, raise.
    cbn [fst snd]. clear Hvalid. split_handler.
Qed.

Lemma login_writes_only_on_success_witness :
  db (UserLoginView.post (mkLoginData "alice@x.com" "wrong") Sample.sample_world).2
    = db Sample.sample_world
  /\ sessions (UserLoginView.post (mkLoginData "alice@x.com" "wrong")
                                  Sample.sample_world).2
     = sessions Sample.sample_world.
Proof.
  apply (login_writes_only_on_success
           Sample.sample_world (mkLoginData "alice@x.com" "wrong")
           Login.InvalidCredentialsError).
  - vm_compute. reflexivity.
  - vm_compute. discriminate.
Defined.

(** ** What a successful request changes *)

(** X9.  A successful email verification rewrites the row of the token
    (only [is_verified] changes) and the row of its owner (only
    [email_verified] and [is_active] change), leaves every other row of the
    three tables as it was, and sends one welcome mail to the owner. *)
Theorem email_verification_effects w token k v expires_at u :
  EmailVerification.objects_get_token token w = (Ok (k, v), w) ->
  ev_is_verified v = false ->
  ev_expires_at v = Some expires_at ->
  clock (env w) (reads w) <= expires_at ->
  users (db w) !! ev_user v = Some u ->
  exists w1,
    EmailVerificationView.get token w = (Ok (VerifyEmail.Success (u_email u)), w1)
    /\ email_verifications (db w1)
       = <[k := set_ev_is_verified true v]> (email_verifications (db w))
    /\ users (db w1)
       = <[ev_user v := set_u_is_active true (set_u_email_verified true u)]> (users (db w))
    /\ password_resets (db w1) = password_resets (db w)
    /\ outbox w1 = mkMail WelcomeMail (u_email u) None :: outbox w.
Proof.
  intros Hget Hnew Hexp Hnow Hu. apply not_gtb in Hnow.
  eexists. split.
  - unfold EmailVerificationView.get. apply try_except_Ok.
    eapply bind_Ok; [exact Hget|]. cbn [snd fst]. rewrite Hnew.
    eapply bind_Ok; [apply ev_is_expired_run, Hexp|]. rewrite Hnow.
    eapply bind_Ok; [apply user_get_pk_run; exact Hu|].
    eapply bind_Ok; [reflexivity|].
    eapply bind_Ok; [eapply ev_save_update_run; exact Hexp|].
    eapply bind_Ok; [reflexivity|].
    reflexivity.
  - repeat split.
Qed.

Lemma email_verification_effects_witness :
  exists w1,
    EmailVerificationView.get 100 Sample.sample_world
      = (Ok (VerifyEmail.Success "bob@x.com"), w1)
    /\ email_verifications (db w1)
       = <[1%N := set_ev_is_verified true Sample.bob_live]>
           (email_verifications (db Sample.sample_world))
    /\ users (db w1)
       = <[2%N := set_u_is_active true (set_u_email_verified true Sample.bob)]>
           (users (db Sample.sample_world))
    /\ password_resets (db w1) = password_resets (db Sample.sample_world)
    /\ outbox w1 = mkMail WelcomeMail "bob@x.com" None :: outbox Sample.sample_world.
Proof.
  apply (email_verification_effects Sample.sample_world 100 1 Sample.bob_live 5000 Sample.bob).
  - vm_compute. reflexivity.
  - reflexivity.
  - reflexivity.
  - vm_compute. discriminate.
  - vm_compute. reflexivity.
Defined.

Lemma pr_filter_token_rewrite token d k r r' :
  PasswordReset.objects_filter_token token d = {[k := r]} ->
  pr_token r' = pr_token r ->
  filter (fun kv : N * PasswordReset => pr_token kv.2 = token)
         (<[k := r']> (password_resets d)) = {[k := r']}.
Proof.
  unfold PasswordReset.objects_filter_token. intros Hrows Htoken.
  assert (pr_token r = token) as Hr.
  { assert (filter (fun kv : N * PasswordReset => pr_token kv.2 = token)
                   (password_resets d) !! k = Some r) as Hk
      by (rewrite Hrows; apply lookup_singleton_eq).
    apply map_lookup_filter_Some in Hk as [_ Hk]. exact Hk. }
  rewrite map_filter_insert_True by (cbn; congruence).
  rewrite Hrows. apply insert_singleton_eq.
Qed.

Lemma pr_save_update_run k r expires_at w :
  pr_expires_at r = Some expires_at ->
  PasswordReset.save (Some k, r) w =
    (Ok (k, r),
     set_db (set_password_resets (<[k := r]> (password_resets (db w)))
                                 (password_resets_seq (db w)) (db w)) w).
Proof. unfold PasswordReset.save, bind. cbn [snd]. intros ->. reflexivity. Qed.

(** X10.  A reset request that passes the serializer and presents a stored
    token that is unused and not expired succeeds: the owner's password
    becomes the hash of the new password, the token is marked used, and a
    password-changed mail is sent.  A later reset request that presents the
    same token is answered [AlreadyUsedError] and changes nothing. *)
Theorem reset_password_once w data validated k r expires_at u :
  (ResetPasswordSerializer.is_valid data w).1 = Ok (inr validated) ->
  PasswordReset.objects_get_token (reset_token validated) w = (Ok (k, r), w) ->
  pr_is_used r = false ->
  pr_expires_at r = Some expires_at ->
  clock (env w) (reads w) <= expires_at ->
  users (db w) !! pr_user r = Some u ->
  exists w1,
    ResetPasswordView.post data w
      = (Ok (mkResponse
               [ ("success", VBool true);
                 ("message", VStr "Password reset successful! You can now login with your new password.") ]
               200), w1)
    /\ users (db w1)
       = <[pr_user r := set_u_password (make_password (env w) (reset_new_password validated)) u]>
           (users (db w))
    /\ password_resets (db w1) = <[k := set_pr_is_used true r]> (password_resets (db w))
    /\ email_verifications (db w1) = email_verifications (db w)
    /\ outbox w1 = mkMail PasswordChangedMail (u_email u) None :: outbox w
    /\ (forall data' validated',
          (ResetPasswordSerializer.is_valid data' w1).1 = Ok (inr validated') ->
          reset_token validated' = reset_token validated ->
          ResetPasswordView.post data' w1 = (Ok ResetPassword.AlreadyUsedError, w1)).
Proof.
  intros Hvalid Hget Hunused Hexp Hnow Hu. apply not_gtb in Hnow.
  assert (exists w1, ResetPasswordView.post data w =
            (Ok (mkResponse
                   [ ("success", VBool true);
                     ("message", VStr "Password reset successful! You can now login with your new password.") ]
                   200), w1)
          /\ w1 = set_outbox (mkMail PasswordChangedMail (u_email u) None :: outbox w)
                    (set_db (mkDB (<[pr_user r := set_u_password (make_password (env w) (reset_new_password validated)) u]> (users (db w)))
                                  (users_seq (db w))
                                  (email_verifications (db w)) (email_verifications_seq (db w))
                                  (<[k := set_pr_is_used true r]> (password_resets (db w)))
                                  (password_resets_seq (db w)))
                            (set_reads (S (reads w)) w)))
    as (w1 & Hrun & Hw1).
  { eexists. split; [|reflexivity].
    unfold ResetPasswordView.post. pass_serializer Hvalid reset_is_valid_world.
    apply try_except_Ok.
    eapply bind_Ok; [exact Hget|]. cbn [snd fst]. rewrite Hunused.
    eapply bind_Ok; [apply pr_is_expired_run, Hexp|]. rewrite Hnow.
    eapply bind_Ok; [apply user_get_pk_run; exact Hu|].
    eapply bind_Ok; [reflexivity|].
    eapply bind_Ok; [reflexivity|].
    eapply bind_Ok; [eapply pr_save_update_run; exact Hexp|].
    eapply bind_Ok; [reflexivity|].
    reflexivity. }
  exists w1. split; [exact Hrun|]. subst w1.
  split; [reflexivity|]. split; [reflexivity|]. split; [reflexivity|].
  split; [reflexivity|].
  intros data' validated' Hvalid' Htoken.
  unfold ResetPasswordView.post. pass_serializer Hvalid' reset_is_valid_world.
  apply try_except_Ok. rewrite Htoken.
  eapply bind_Ok.
  - apply pr_get_token_Ok. apply pr_get_token_Ok in Hget.
    unfold PasswordReset.objects_filter_token at 1.
    cbn [db set_db set_outbox set_reads password_resets].
    eapply pr_filter_token_rewrite; [exact Hget | reflexivity].
  - reflexivity.
Qed.

Lemma reset_password_once_witness :
  exists w1,
    ResetPasswordView.post (mkResetPasswordData 200 "NewPass1" "NewPass1")
                           Sample.sample_world
      = (Ok (mkResponse
               [ ("success", VBool true);
                 ("message", VStr "Password reset successful! You can now login with your new password.") ]
               200), w1)
    /\ users (db w1)
       = <[1%N := set_u_password (Sample.hasher "NewPass1") Sample.alice]>
           (users (db Sample.sample_world))
    /\ password_resets (db w1)
       = <[1%N := set_pr_is_used true Sample.reset_live]>
           (password_resets (db Sample.sample_world))
    /\ email_verifications (db w1) = email_verifications (db Sample.sample_world)
    /\ outbox w1 = mkMail PasswordChangedMail "alice@x.com" None :: outbox Sample.sample_world
    /\ (forall data' validated',
          (ResetPasswordSerializer.is_valid data' w1).1 = Ok (inr validated') ->
          reset_token validated' = 200%N ->
          ResetPasswordView.post data' w1 = (Ok ResetPassword.AlreadyUsedError, w1)).
Proof.
  apply (reset_password_once
           Sample.sample_world
           (mkResetPasswordData 200 "NewPass1" "NewPass1")
           (mkResetPasswordData 200 "NewPass1" "NewPass1")
           1%N Sample.reset_live 5000 Sample.alice).
  - vm_compute. reflexivity.
  - vm_compute. reflexivity.
  - reflexivity.
  - reflexivity.
  - vm_compute. discriminate.
  - vm_compute. reflexivity.
Defined.


Lemma user_get_email_lookup email w k u :
  User.objects_get_email email w = (Ok (k, u), w) ->
  users (db w) !! k = Some u /\ u_email u = email.
Proof.
  unfold User.objects_get_email, bind, get_db, lift. intros [= Hget].
  apply get_unique_Ok in Hget. unfold User.objects_filter_email in Hget.
  assert (filter (fun kv : N * User => u_email kv.2 = email) (users (db w)) !! k = Some u)
    as Hk by (rewrite Hget; apply lookup_singleton_eq).
  apply map_lookup_filter_Some in Hk. exact Hk.
Qed.



(** ** Forgotten password *)

(** X12.  A forgotten-password request that passes the serializer and names
    an existing account stores one new reset token for it (unused, expiring
    one hour after the clock value read by [save]), leaves the users and the
    verification tokens as they were, and sends the account one mail that
    carries the token; a request that names no account leaves the world as
    it was: no token, no mail. *)
Theorem forgot_password_effects w data validated :
  (ForgotPasswordSerializer.is_valid data w).1 = Ok (inr validated) ->
  (forall user,
      User.objects_get_email (forgot_email validated) w = (Ok user, w) ->
      PasswordReset.objects_filter_token (uuid4 (env w) (draws w)) (db w) = ∅ ->
      let token := uuid4 (env w) (draws w) in
      let row := mkPasswordReset user.1 token (Some (clock (env w) (S (reads w)))) false
                   (Some (clock (env w) (reads w) + timedelta_hours 1)) in
      exists w1,
        ForgotPasswordView.post data w = (Ok ForgotPassword.Success, w1)
        /\ password_resets (db w1)
           = <[password_resets_seq (db w) := row]> (password_resets (db w))
        /\ users (db w1) = users (db w)
        /\ email_verifications (db w1) = email_verifications (db w)
        /\ outbox w1 = mkMail PasswordResetMail (u_email user.2) (Some token) :: outbox w)
  /\ (User.objects_get_email (forgot_email validated) w = (Raise (DoesNotExist MUser), w) ->
      ForgotPasswordView.post data w = (Ok ForgotPassword.Success, w)).
Proof.
  intros Hvalid. split.
  - intros user Hget Hfresh token row. eexists. split.
    + unfold ForgotPasswordView.post. pass_serializer Hvalid forgot_is_valid_world.
      eapply bind_Ok.
      * apply try_except_Ok.
        eapply bind_Ok; [exact Hget|].
        eapply bind_Ok; [apply pr_create_run; exact Hfresh|].
        eapply bind_Ok; [reflexivity|]. reflexivity.
      * reflexivity.
    + repeat split.
  - intros Hget. unfold ForgotPasswordView.post.
    pass_serializer Hvalid forgot_is_valid_world.
    eapply bind_Ok.
    + eapply try_except_caught; [eapply bind_Raise; exact Hget | reflexivity].
    + reflexivity.
Qed.

Lemma forgot_password_effects_witness :
  (exists w1,
      ForgotPasswordView.post (mkForgotPasswordData "Alice@x.com") Sample.sample_world
        = (Ok ForgotPassword.Success, w1)
      /\ password_resets (db w1)
         = <[4%N := mkPasswordReset 1 300 (Some 1001) false (Some (1000 + timedelta_hours 1))]>
             (password_resets (db Sample.sample_world))
      /\ users (db w1) = users (db Sample.sample_world)
      /\ email_verifications (db w1) = email_verifications (db Sample.sample_world)
      /\ outbox w1 = [mkMail PasswordResetMail "alice@x.com" (Some 300%N)])
  /\ ForgotPasswordView.post (mkForgotPasswordData "nobody@x.com") Sample.sample_world
     = (Ok ForgotPassword.Success, Sample.sample_world).
Proof.
  split.
  - apply (proj1 (forgot_password_effects
                    Sample.sample_world (mkForgotPasswordData "Alice@x.com")
                    (mkForgotPasswordData "alice@x.com") eq_refl)
                 (1%N, Sample.alice));
      vm_compute; reflexivity.
  - apply (proj2 (forgot_password_effects
                    Sample.sample_world (mkForgotPasswordData "nobody@x.com")
                    (mkForgotPasswordData "nobody@x.com") eq_refl)).
    vm_compute. reflexivity.
Defined.

(** ** Resending retires the earlier links *)

Lemma map_filter_singleton_excluded {A} (P Q : N * A -> Prop)
    `{!forall x, Decision (P x)} `{!forall x, Decision (Q x)} (m : gmap N A) k x :
  filter P m = {[k := x]} -> ~ Q (k, x) -> filter P (filter Q m) = ∅.
Proof.
  intros Hone Hnot. apply map_empty. intros i.
  destruct (filter P (filter Q m) !! i) as [y|] eqn:Hy; [|reflexivity].
  apply map_lookup_filter_Some in Hy as [Hy HP].
  apply map_lookup_filter_Some in Hy as [Hy HQ].
  assert (filter P m !! i = Some y) as Hin by (apply map_lookup_filter_Some; auto).
  rewrite Hone in Hin. apply lookup_singleton_Some in Hin as [<- <-]. contradiction.
Qed.

Lemma resend_run w email user :
  is_empty email = false ->
  User.objects_get_email (strip (lower email)) w = (Ok user, w) ->
  u_email_verified user.2 = false ->
  EmailVerification.objects_filter_token (uuid4 (env w) (draws w)) (db w) = ∅ ->
  let row := mkEmailVerification user.1 (uuid4 (env w) (draws w))
               (Some (clock (env w) (S (reads w)))) false
               (Some (clock (env w) (reads w) + timedelta_hours 24)) in
  ResendVerificationEmailView.post (Some email) w =
    (Ok (ResendVerification.Sent (u_email user.2)
                                 (mail_delivered (env w) (length (outbox w)))),
     set_outbox (mkMail VerificationMail (u_email user.2) (Some (uuid4 (env w) (draws w)))
                 :: outbox w)
       (set_db (set_email_verifications
                  (<[email_verifications_seq (db w) := row]>
                     (filter (fun kv : N * EmailVerification => ev_user kv.2 <> user.1)
                             (email_verifications (db w))))
                  (N.succ (email_verifications_seq (db w))) (db w))
               (set_reads (S (S (reads w))) (set_draws (S (draws w)) w)))).
Proof.
  intros Hnonempty Hget Hunverified Hfresh row.
  unfold ResendVerificationEmailView.post. rewrite Hnonempty.
  apply try_except_Ok. eapply bind_Ok; [exact Hget|]. rewrite Hunverified.
  eapply bind_Ok; [reflexivity|].
  eapply bind_Ok.
  { apply ev_create_run. unfold EmailVerification.objects_filter_token in *.
    cbn [db set_db env draws email_verifications set_email_verifications].
    apply map_filter_filter_empty. exact Hfresh. }
  eapply bind_Ok; [reflexivity|]. reflexivity.
Qed.

(** X13.  After a resend for an unverified account, a verification link
    issued to that account earlier is dead (presenting its token is answered
    [NotFoundError]) while the token just issued is the one stored row that
    carries its value; the users and the tokens of the other accounts are as
    they were, and the mail sent carries the new token. *)
Theorem resend_retires_earlier_links w email user old k0 v0 :
  is_empty email = false ->
  User.objects_get_email (strip (lower email)) w = (Ok user, w) ->
  u_email_verified user.2 = false ->
  EmailVerification.objects_filter_token (uuid4 (env w) (draws w)) (db w) = ∅ ->
  EmailVerification.objects_get_token old w = (Ok (k0, v0), w) ->
  ev_user v0 = user.1 ->
  let token := uuid4 (env w) (draws w) in
  exists w1 row,
    ResendVerificationEmailView.post (Some email) w
      = (Ok (ResendVerification.Sent (u_email user.2)
                                     (mail_delivered (env w) (length (outbox w)))), w1)
    /\ EmailVerificationView.get old w1 = (Ok VerifyEmail.NotFoundError, w1)
    /\ EmailVerification.objects_get_token token w1
       = (Ok (email_verifications_seq (db w), row), w1)
    /\ ev_user row = user.1
    /\ users (db w1) = users (db w)
    /\ (forall k v,
          email_verifications (db w) !! k = Some v ->
          ev_user v <> user.1 ->
          k <> email_verifications_seq (db w) ->
          email_verifications (db w1) !! k = Some v)
    /\ outbox w1 = mkMail VerificationMail (u_email user.2) (Some token) :: outbox w.
Proof.
  intros Hnonempty Hget Hunverified Hfresh Hold Howner token. subst token.
  rewrite (resend_run w email user Hnonempty Hget Hunverified Hfresh).
  eexists _, _. split; [reflexivity|].
  apply ev_get_token_Ok in Hold.
  assert (ev_token v0 = old /\ email_verifications (db w) !! k0 = Some v0) as [Htoken Hk0].
  { unfold EmailVerification.objects_filter_token in Hold.
    assert (filter (fun kv : N * EmailVerification => ev_token kv.2 = old)
                   (email_verifications (db w)) !! k0 = Some v0) as Hin
      by (rewrite Hold; apply lookup_singleton_eq).
    apply map_lookup_filter_Some in Hin as [? ?]. auto. }
  assert (old <> uuid4 (env w) (draws w)) as Hdiffer.
  { intros ->. unfold EmailVerification.objects_filter_token in Hfresh.
    eapply (map_filter_empty_not_lookup _ _ k0 v0 Hfresh); [exact Htoken | exact Hk0]. }
  split; [|split; [|split; [|split; [|split]]]].
  - unfold EmailVerificationView.get.
    eapply try_except_caught; [|reflexivity].
    eapply bind_Raise. unfold EmailVerification.objects_get_token, bind, get_db, lift.
    erewrite (proj2 (get_unique_DoesNotExist MEmailVerification _)); [reflexivity|].
    unfold EmailVerification.objects_filter_token in *.
    cbn [db set_db set_outbox set_reads set_draws email_verifications
         set_email_verifications].
    rewrite map_filter_insert_False by (cbn; congruence).
    rewrite map_filter_delete.
    rewrite (map_filter_singleton_excluded _ _ _ k0 v0 Hold); [apply delete_empty|].
    cbn. intros Hne. apply Hne. exact Howner.
  - apply ev_get_token_Ok. unfold EmailVerification.objects_filter_token in *.
    cbn [db set_db set_outbox set_reads set_draws email_verifications
         set_email_verifications].
    rewrite map_filter_insert_True by reflexivity.
    rewrite (map_filter_filter_empty _ _ _ Hfresh). apply insert_empty.
  - reflexivity.
  - reflexivity.
  - intros k v Hk Hother Hkey.
    cbn [db set_db set_outbox set_reads set_draws email_verifications
         set_email_verifications].
    rewrite lookup_insert_ne by congruence.
    apply map_lookup_filter_Some. split; [exact Hk | exact Hother].
  - reflexivity.
Qed.

Lemma resend_retires_earlier_links_witness :
  exists w1 row,
    ResendVerificationEmailView.post (Some "bob@x.com") Sample.sample_world
      = (Ok (ResendVerification.Sent "bob@x.com" true), w1)
    /\ EmailVerificationView.get 100 w1 = (Ok VerifyEmail.NotFoundError, w1)
    /\ EmailVerification.objects_get_token 300 w1 = (Ok (4%N, row), w1)
    /\ ev_user row = 2%N
    /\ users (db w1) = users (db Sample.sample_world)
    /\ (forall k v,
          email_verifications (db Sample.sample_world) !! k = Some v ->
          ev_user v <> 2%N ->
          k <> 4%N ->
          email_verifications (db w1) !! k = Some v)
    /\ outbox w1 = [mkMail VerificationMail "bob@x.com" (Some 300%N)].
Proof.
  apply (resend_retires_earlier_links
           Sample.sample_world "bob@x.com" (2%N, Sample.bob) 100 1 Sample.bob_live);
    vm_compute; reflexivity.
Defined.

(** ** From registration to the first login *)

Lemma is_alpha_not_space c : is_alpha c = true -> is_space c = false.
Proof. destruct c as [[] [] [] [] [] [] [] []]; vm_compute; congruence. Qed.

Lemma any_char_nonempty p s : any_char p s = true -> is_empty s = false.
Proof. destruct s; [discriminate | reflexivity]. Qed.

Lemma any_char_lstrip p s :
  (forall c, p c = true -> is_space c = false) ->
  any_char p s = true -> any_char p (lstrip s) = true.
Proof.
  intros Hp. induction s as [|c s IH]; [discriminate|].
  cbn [any_char lstrip]. destruct (is_space c) eqn:Hc; [|auto].
  destruct (p c) eqn:Hpc; [rewrite (Hp c Hpc) in Hc; discriminate|]. exact IH.
Qed.

Lemma any_char_rstrip p s :
  (forall c, p c = true -> is_space c = false) ->
  any_char p s = true -> any_char p (rstrip s) = true.
Proof.
  intros Hp. induction s as [|c s IH]; [discriminate|].
  cbn [any_char rstrip]. intros Hany.
  destruct (p c) eqn:Hpc.
  - destruct (rstrip s); [rewrite (Hp c Hpc)|]; cbn [any_char]; rewrite Hpc; reflexivity.
  - cbn [orb] in Hany. specialize (IH Hany).
    destruct (rstrip s) as [|c' r]; [discriminate|].
    cbn [any_char] in *. rewrite IH. apply orb_true_r.
Qed.

Lemma login_password_accepted value :
  any_char is_alpha value = true ->
  UserLoginSerializer.validate_password value = Valid value.
Proof.
  intros Halpha. unfold UserLoginSerializer.validate_password.
  rewrite (any_char_nonempty _ _ Halpha).
  rewrite (any_char_nonempty is_alpha (strip value)); [reflexivity|].
  unfold strip. apply any_char_rstrip, any_char_lstrip;
    auto using is_alpha_not_space.
Qed.

Lemma registration_is_valid_password data w validated :
  (UserRegistrationSerializer.is_valid data w).1 = Ok (inr validated) ->
  reg_password validated = reg_password data
  /\ any_char is_alpha (reg_password data) = true.
Proof.
  unfold UserRegistrationSerializer.is_valid, bind, get_env, get_db.
  rewrite validate_email_run.
  unfold ret, UserRegistrationSerializer.validate,
    UserRegistrationSerializer.validate_password.
  destruct (password_policy (reg_password data)) as [a|message] eqn:Hpolicy.
  - unfold password_policy in Hpolicy.
    destruct (String.length (reg_password data) <? 8)%nat; [discriminate|].
    destruct (any_char is_alpha (reg_password data)); [|discriminate].
    destruct (any_char is_digit (reg_password data)); [|discriminate].
    injection Hpolicy as <-.
    repeat case_match; cbn; intros; simplify_eq; cbn; auto.
  - repeat case_match; cbn; intros; simplify_eq.
Qed.

Lemma registration_run data w validated :
  (UserRegistrationSerializer.is_valid data w).1 = Ok (inr validated) ->
  EmailVerification.objects_filter_token (uuid4 (env w) (draws w)) (db w) = ∅ ->
  let user := mkUser (reg_email validated)
                (make_password (env w) (reg_password validated))
                (reg_first_name validated) (reg_last_name validated)
                (default (Some EmptyString) (reg_phone_number validated))
                (default "pet_owner" (reg_user_type validated))
                false false false (clock (env w) (reads w)) None in
  let row := mkEmailVerification (users_seq (db w)) (uuid4 (env w) (draws w))
               (Some (clock (env w) (S (S (reads w))))) false
               (Some (clock (env w) (S (reads w)) + timedelta_hours 24)) in
  UserRegistrationView.post data w =
    (Ok (Registration.Success (reg_email validated)
                              (mail_delivered (env w) (length (outbox w)))),
     set_outbox (mkMail VerificationMail (reg_email validated)
                        (Some (uuid4 (env w) (draws w))) :: outbox w)
       (set_db (mkDB (<[users_seq (db w) := user]> (users (db w)))
                     (N.succ (users_seq (db w)))
                     (<[email_verifications_seq (db w) := row]> (email_verifications (db w)))
                     (N.succ (email_verifications_seq (db w)))
                     (password_resets (db w)) (password_resets_seq (db w)))
               (set_reads (S (S (S (reads w)))) (set_draws (S (draws w)) w)))).
Proof.
  intros Hvalid Hfresh user row.
  destruct (registration_is_valid_inv data w validated Hvalid) as (Hemail & Hfree & Hre).
  unfold UserRegistrationView.post.
  pass_serializer Hvalid registration_is_valid_world.
  eapply bind_Ok.
  { apply create_run; [apply email_regex_nonempty, Hre | | exact Hfree].
    rewrite Hemail. apply normalize_email_fixed. }
  eapply bind_Ok.
  { apply ev_create_run. exact Hfresh. }
  eapply bind_Ok; [reflexivity|]. reflexivity.
Qed.

Lemma login_is_valid_accepts credentials w :
  login_field_errors (env w) credentials = [] ->
  any_char is_alpha (login_password credentials) = true ->
  (UserLoginSerializer.is_valid credentials w).1 =
    Ok (inr (mkLoginData (UserLoginSerializer.validate_email (login_email credentials))
                         (login_password credentials))).
Proof.
  intros Hdeclared Halpha. unfold UserLoginSerializer.is_valid, bind, get_env.
  rewrite Hdeclared, (login_password_accepted _ Halpha). reflexivity.
Qed.

Lemma user_get_email_singleton email w k u :
  User.objects_filter_email email (db w) = {[k := u]} ->
  User.objects_get_email email w = (Ok (k, u), w).
Proof.
  intros Hone. unfold User.objects_get_email, bind, get_db, lift.
  rewrite (proj2 (get_unique_Ok MUser _ k u) Hone). reflexivity.
Qed.

(** X14.  Registration, then login, then verification, then login again.  A
    registration that passes validation creates the account; a login with
    the address and password just registered is refused with
    [UnverifiedEmailError]; presenting the token of the verification mail
    before it expires succeeds; after that the same login succeeds.  The
    identifier drawn for the token is assumed fresh, the declared validators
    of the login serializer are assumed to accept the credentials, and the
    hasher to recognise the password it hashed. *)
Theorem register_verify_login w data validated :
  (UserRegistrationSerializer.is_valid data w).1 = Ok (inr validated) ->
  EmailVerification.objects_filter_token (uuid4 (env w) (draws w)) (db w) = ∅ ->
  login_field_errors (env w) (mkLoginData (reg_email data) (reg_password data)) = [] ->
  check_password_hash (env w) (reg_password data)
                      (make_password (env w) (reg_password data)) = true ->
  clock (env w) (S (S (S (reads w)))) <= clock (env w) (S (reads w)) + timedelta_hours 24 ->
  exists w1 w2 response w3,
    UserRegistrationView.post data w =
      (Ok (Registration.Success (reg_email validated)
                                (mail_delivered (env w) (length (outbox w)))), w1)
    /\ UserLoginView.post (mkLoginData (reg_email data) (reg_password data)) w1
       = (Ok Login.UnverifiedEmailError, w1)
    /\ EmailVerificationView.get (uuid4 (env w) (draws w)) w1
       = (Ok (VerifyEmail.Success (reg_email validated)), w2)
    /\ UserLoginView.post (mkLoginData (reg_email data) (reg_password data)) w2
       = (Ok response, w3)
    /\ status response = 200.
Proof.
  intros Hvalid Hfresh Hdeclared Hhasher Hintime. apply not_gtb in Hintime.
  destruct (registration_is_valid_inv data w validated Hvalid) as (Hemail & Hfree & _).
  destruct (registration_is_valid_password data w validated Hvalid) as (Hpassword & Halpha).
  rewrite (registration_run data w validated Hvalid Hfresh).
  set (user := mkUser (reg_email validated) _ _ _ _ _ false false false _ None).
  set (row := mkEmailVerification (users_seq (db w)) _ _ false _).
  set (w1 := set_outbox _ _).
  assert (forall w', env w' = env w ->
            (UserLoginSerializer.is_valid
               (mkLoginData (reg_email data) (reg_password data)) w').1
            = Ok (inr (mkLoginData (reg_email validated) (reg_password data))))
    as Hcredentials.
  { intros w' Henv. rewrite login_is_valid_accepts; [|rewrite Henv; exact Hdeclared|exact Halpha].
    rewrite Hemail. reflexivity. }
  assert (User.objects_filter_email (reg_email validated) (db w1) = {[users_seq (db w) := user]})
    as Hone.
  { unfold User.objects_filter_email in *. subst w1.
    cbn [db set_db set_outbox users].
    rewrite map_filter_insert_True by reflexivity. rewrite Hfree. apply insert_empty. }
  set (user' := set_u_is_active true (set_u_email_verified true user)).
  set (w2 := set_outbox (mkMail WelcomeMail (reg_email validated) None :: outbox w1)
               (set_db (mkDB (<[users_seq (db w) := user']> (users (db w1)))
                             (users_seq (db w1))
                             (<[email_verifications_seq (db w) := set_ev_is_verified true row]>
                                (email_verifications (db w1)))
                             (email_verifications_seq (db w1))
                             (password_resets (db w1)) (password_resets_seq (db w1)))
                       (set_reads (S (reads w1)) w1))).
  assert (User.objects_filter_email (reg_email validated) (db w2)
          = {[users_seq (db w) := user']}) as Hone'.
  { unfold User.objects_filter_email in *. subst w2.
    cbn [db set_db set_outbox users].
    rewrite map_filter_insert_True by reflexivity. rewrite Hone. apply insert_singleton_eq. }
  exists w1, w2. eexists _, _. split; [reflexivity|]. split; [|split; [|split]].
  - rewrite (login_found w1 _ _ _ user (Hcredentials w1 eq_refl)
               (user_get_email_singleton _ _ _ _ Hone)).
    reflexivity.
  - unfold EmailVerificationView.get. apply try_except_Ok.
    eapply bind_Ok.
    { apply ev_get_token_Ok. unfold EmailVerification.objects_filter_token in *.
      subst w1. cbn [db set_db set_outbox email_verifications].
      rewrite map_filter_insert_True by reflexivity. rewrite Hfresh. apply insert_empty. }
    cbn [snd fst ev_is_verified row].
    eapply bind_Ok; [apply ev_is_expired_run; reflexivity|].
    replace (clock (env w1) (reads w1) >? _) with false by (symmetry; exact Hintime).
    eapply bind_Ok; [apply user_get_pk_run; apply lookup_insert_eq|].
    eapply bind_Ok; [reflexivity|].
    eapply bind_Ok; [eapply ev_save_update_run; reflexivity|].
    eapply bind_Ok; [reflexivity|].
    reflexivity.
  - unfold UserLoginView.post.
    eapply bind_Ok.
    { apply run_pair; [apply Hcredentials; reflexivity | apply login_is_valid_world]. }
    cbn beta iota.
    eapply bind_Ok.
    { apply try_except_Ok. eapply bind_Ok; [|reflexivity].
      apply user_get_email_singleton. exact Hone'. }
    cbn [snd fst u_email_verified u_is_active user' set_u_is_active set_u_email_verified
         negb login_password].
    eapply bind_Ok; [reflexivity|].
    replace (check_password_hash _ _ _) with true.
    2:{ symmetry. unfold user', user.
        cbn [u_password set_u_is_active set_u_email_verified].
        rewrite Hpassword. exact Hhasher. }
    cbn [negb].
    eapply bind_Ok; [reflexivity|].
    eapply bind_Ok; [reflexivity|].
    eapply bind_Ok; [reflexivity|].
    eapply bind_Ok; [reflexivity|].
    eapply bind_Ok; [reflexivity|].
    eapply bind_Ok; [reflexivity|].
    reflexivity.
  - reflexivity.
Qed.

Lemma register_verify_login_witness :
  exists w1 w2 response w3,
    UserRegistrationView.post Sample.dave_registration Sample.sample_world =
      (Ok (Registration.Success "dave@x.com" true), w1)
    /\ UserLoginView.post (mkLoginData " Dave@X.com " "Passw0rd4") w1
       = (Ok Login.UnverifiedEmailError, w1)
    /\ EmailVerificationView.get 300 w1 = (Ok (VerifyEmail.Success "dave@x.com"), w2)
    /\ UserLoginView.post (mkLoginData " Dave@X.com " "Passw0rd4") w2 = (Ok response, w3)
    /\ status response = 200.
Proof.
  apply (register_verify_login
           Sample.sample_world Sample.dave_registration
           (mkRegistrationData "dave@x.com" "Passw0rd4" "Passw0rd4" "Dave" "D"
                               (Some (Some "+1 (555) 123-4567")) None)).
  - vm_compute. reflexivity.
  - vm_compute. reflexivity.
  - reflexivity.
  - vm_compute. reflexivity.
  - vm_compute. discriminate.
Defined.

(** ** From the forgotten password to the new one *)

Lemma forgot_password_run w data validated user :
  (ForgotPasswordSerializer.is_valid data w).1 = Ok (inr validated) ->
  User.objects_get_email (forgot_email validated) w = (Ok user, w) ->
  PasswordReset.objects_filter_token (uuid4 (env w) (draws w)) (db w) = ∅ ->
  let row := mkPasswordReset user.1 (uuid4 (env w) (draws w))
               (Some (clock (env w) (S (reads w)))) false
               (Some (clock (env w) (reads w) + timedelta_hours 1)) in
  ForgotPasswordView.post data w =
    (Ok ForgotPassword.Success,
     set_outbox (mkMail PasswordResetMail (u_email user.2) (Some (uuid4 (env w) (draws w)))
                 :: outbox w)
       (set_db (set_password_resets
                  (<[password_resets_seq (db w) := row]> (password_resets (db w)))
                  (N.succ (password_resets_seq (db w))) (db w))
               (set_reads (S (S (reads w))) (set_draws (S (draws w)) w)))).
Proof.
  intros Hvalid Hget Hfresh row.
  unfold ForgotPasswordView.post. pass_serializer Hvalid forgot_is_valid_world.
  eapply bind_Ok.
  - apply try_except_Ok.
    eapply bind_Ok; [exact Hget|].
    eapply bind_Ok; [apply pr_create_run; exact Hfresh|].
    eapply bind_Ok; [reflexivity|]. reflexivity.
  - reflexivity.
Qed.

Lemma reset_is_valid_env data w w' :
  env w' = env w ->
  (ResetPasswordSerializer.is_valid data w').1 = (ResetPasswordSerializer.is_valid data w).1.
Proof.
  intros Henv. unfold ResetPasswordSerializer.is_valid, bind, get_env, ret.
  rewrite Henv. repeat case_match; reflexivity.
Qed.

(** X15.  The token mailed by a forgotten-password request resets the
    password: when the reset request carrying it passes the serializer and
    arrives before the hour has passed, it succeeds, the account's stored
    password becomes the hash of the new one, and the token is left used.
    The identifier drawn for the token is assumed fresh. *)
Theorem forgot_then_reset w data validated k u data' validated' :
  (ForgotPasswordSerializer.is_valid data w).1 = Ok (inr validated) ->
  User.objects_get_email (forgot_email validated) w = (Ok (k, u), w) ->
  PasswordReset.objects_filter_token (uuid4 (env w) (draws w)) (db w) = ∅ ->
  (ResetPasswordSerializer.is_valid data' w).1 = Ok (inr validated') ->
  reset_token validated' = uuid4 (env w) (draws w) ->
  clock (env w) (S (S (reads w))) <= clock (env w) (reads w) + timedelta_hours 1 ->
  exists w1 w2 row,
    ForgotPasswordView.post data w = (Ok ForgotPassword.Success, w1)
    /\ outbox w1 = mkMail PasswordResetMail (u_email u) (Some (reset_token validated'))
                   :: outbox w
    /\ ResetPasswordView.post data' w1
       = (Ok (mkResponse
                [ ("success", VBool true);
                  ("message", VStr "Password reset successful! You can now login with your new password.") ]
                200), w2)
    /\ users (db w2) !! k
       = Some (set_u_password (make_password (env w) (reset_new_password validated')) u)
    /\ password_resets (db w2) !! password_resets_seq (db w) = Some row
    /\ pr_is_used row = true /\ pr_user row = k.
Proof.
  intros Hvalid Hget Hfresh Hvalid' Htoken Hintime. apply not_gtb in Hintime.
  destruct (user_get_email_lookup _ _ _ _ Hget) as [Hk _].
  rewrite (forgot_password_run w data validated (k, u) Hvalid Hget Hfresh).
  cbn [fst snd].
  set (row := mkPasswordReset k _ _ false _).
  set (w1 := set_outbox _ _).
  assert (exists w2,
            ResetPasswordView.post data' w1 =
              (Ok (mkResponse
                     [ ("success", VBool true);
                       ("message", VStr "Password reset successful! You can now login with your new password.") ]
                     200), w2)
            /\ w2 = set_outbox (mkMail PasswordChangedMail (u_email u) None :: outbox w1)
                      (set_db (mkDB (<[k := set_u_password (make_password (env w) (reset_new_password validated')) u]> (users (db w1)))
                                    (users_seq (db w1))
                                    (email_verifications (db w1)) (email_verifications_seq (db w1))
                                    (<[password_resets_seq (db w) := set_pr_is_used true row]> (password_resets (db w1)))
                                    (password_resets_seq (db w1)))
                              (set_reads (S (reads w1)) w1)))
    as (w2 & Hrun & Hw2).
  { eexists. split; [|reflexivity].
    unfold ResetPasswordView.post.
    eapply bind_Ok;
      [apply run_pair;
       [rewrite (reset_is_valid_env data' w w1 eq_refl); exact Hvalid'
       | apply reset_is_valid_world]|].
    cbn beta iota. apply try_except_Ok. rewrite Htoken.
    eapply bind_Ok.
    { apply pr_get_token_Ok. unfold PasswordReset.objects_filter_token in *.
      subst w1. cbn [db set_db set_outbox password_resets set_password_resets].
      rewrite map_filter_insert_True by reflexivity. rewrite Hfresh. apply insert_empty. }
    cbn [snd fst pr_is_used row].
    eapply bind_Ok; [apply pr_is_expired_run; reflexivity|].
    replace (clock (env w1) (reads w1) >? _) with false by (symmetry; exact Hintime).
    eapply bind_Ok; [apply user_get_pk_run; exact Hk|].
    eapply bind_Ok; [reflexivity|].
    eapply bind_Ok; [reflexivity|].
    eapply bind_Ok; [eapply pr_save_update_run; reflexivity|].
    eapply bind_Ok; [reflexivity|].
    reflexivity. }
  exists w1, w2, (set_pr_is_used true row).
  split; [reflexivity|]. split; [rewrite Htoken; reflexivity|].
  split; [exact Hrun|]. subst w2.
  split; [apply lookup_insert_eq|]. split; [apply lookup_insert_eq|].
  split; reflexivity.
Qed.

Lemma forgot_then_reset_witness :
  exists w1 w2 row,
    ForgotPasswordView.post (mkForgotPasswordData "alice@x.com") Sample.sample_world
      = (Ok ForgotPassword.Success, w1)
    /\ outbox w1 = [mkMail PasswordResetMail "alice@x.com" (Some 300%N)]
    /\ ResetPasswordView.post (mkResetPasswordData 300 "NewPass1" "NewPass1") w1
       = (Ok (mkResponse
                [ ("success", VBool true);
                  ("message", VStr "Password reset successful! You can now login with your new password.") ]
                200), w2)
    /\ users (db w2) !! 1%N = Some (set_u_password (Sample.hasher "NewPass1") Sample.alice)
    /\ password_resets (db w2) !! 4%N = Some row
    /\ pr_is_used row = true /\ pr_user row = 1%N.
Proof.
  apply (forgot_then_reset
           Sample.sample_world
           (mkForgotPasswordData "alice@x.com") (mkForgotPasswordData "alice@x.com")
           1%N Sample.alice
           (mkResetPasswordData 300 "NewPass1" "NewPass1")
           (mkResetPasswordData 300 "NewPass1" "NewPass1")).
  - vm_compute. reflexivity.
  - vm_compute. reflexivity.
  - vm_compute. reflexivity.
  - vm_compute. reflexivity.
  - reflexivity.
  - vm_compute. discriminate.
Defined.

(** ** Registration keeps addresses unique *)

Lemma ev_create_keeps_users user w :
  users (db (EmailVerification.objects_create user w).2) = users (db w).
Proof.
  unfold EmailVerification.objects_create, EmailVerification.save,
    EmailVerification.super_save, bind, uuid_uuid4, timezone_now, get_db, put_db,
    ret, raise.
  cbn [fst snd ev_expires_at]. repeat case_match; simplify_eq; reflexivity.
Qed.

Lemma registration_users data w :
  users (db (UserRegistrationView.post data w).2) = users (db w)
  \/ exists user,
       User.objects_filter_email (u_email user) (db w) = ∅
       /\ users (db (UserRegistrationView.post data w).2)
          = <[users_seq (db w) := user]> (users (db w)).
Proof.
  destruct (UserRegistrationSerializer.is_valid data w) as [[[errors|validated]|e] w0]
    eqn:Hvalid;
    pose proof (registration_is_valid_world data w) as Hworld; rewrite Hvalid in Hworld;
    cbn [snd] in Hworld; subst w0.
  - left. unfold UserRegistrationView.post, bind. rewrite Hvalid. reflexivity.
  - right.
    assert ((UserRegistrationSerializer.is_valid data w).1 = Ok (inr validated)) as Hvalid1
      by (rewrite Hvalid; reflexivity).
    destruct (registration_is_valid_inv data w validated Hvalid1) as (Hemail & Hfree & Hre).
    eexists. split; [|].
    2:{ unfold UserRegistrationView.post. unfold bind at 1. rewrite Hvalid.
        unfold bind at 1.
        rewrite create_run;
          [| apply email_regex_nonempty, Hre
           | rewrite Hemail; apply normalize_email_fixed
           | exact Hfree].
        unfold bind at 1.
        match goal with
        | |- context [EmailVerification.objects_create ?u ?w2] =>
            pose proof (ev_create_keeps_users u w2) as Hkeep;
            destruct (EmailVerification.objects_create u w2) as [[v|e] w3]
        end.
        - cbn [snd] in Hkeep. unfold bind, utils.send_verification_email, send_mail, ret.
          cbn [snd db set_outbox]. rewrite Hkeep. reflexivity.
        - cbn [snd] in *. rewrite Hkeep. reflexivity. }
    exact Hfree.
  - left. unfold UserRegistrationView.post, bind. rewrite Hvalid. reflexivity.
Qed.

(** X16.  Registration keeps the addresses of the users table pairwise
    distinct, whatever the request and however the handler ends. *)
Theorem registration_keeps_emails_unique w data :
  emails_unique (db w) ->
  emails_unique (db (UserRegistrationView.post data w).2).
Proof.
  unfold emails_unique. intros Hunique.
  destruct (registration_users data w) as [-> | (user & Hfree & ->)]; [exact Hunique|].
  unfold User.objects_filter_email in Hfree.
  assert (forall k u, users (db w) !! k = Some u -> u_email u <> u_email user) as Hnew.
  { intros k u Hk Hsame.
    exact (map_filter_empty_not_lookup _ _ k u Hfree Hsame Hk). }
  intros k1 u1 H1 k2 u2 H2 Hsame.
  apply lookup_insert_Some in H1 as [[<- <-]|[Hne1 H1]];
    apply lookup_insert_Some in H2 as [[<- <-]|[Hne2 H2]].
  - reflexivity.
  - exfalso. exact (Hnew k2 u2 H2 (eq_sym Hsame)).
  - exfalso. exact (Hnew k1 u1 H1 Hsame).
  - exact (Hunique k1 u1 H1 k2 u2 H2 Hsame).
Qed.

Lemma registration_keeps_emails_unique_witness :
  emails_unique
    (db (UserRegistrationView.post Sample.dave_registration Sample.sample_world).2).
Proof.
  apply (registration_keeps_emails_unique Sample.sample_world Sample.dave_registration).
  apply (bool_decide_unpack _). vm_compute. exact I.
Defined.
